(** * MSSQLDocumenter: the batch documentation pipeline

    A shallow embedding of [src/python/services]: the type formatter and the
    four object documenters ([db_object_documenter.py], [table_documenter.py],
    [view_documenter.py], [procedure_documenter.py], [function_documenter.py]),
    the vector store ([vector_store.py]), the enrichment client
    ([llm_client.py]) and the batch orchestrator ([documenter.py]).

    Python values are modelled as the code uses them: [str] as [string],
    [int] as [Z], [Optional[...]] as [option], lists as [list], the ordered
    dict [VectorStore.collections] as an association list, the collections
    held by the chromadb client as finite maps.  A Python call that may raise
    returns a [result]; code that mutates objects or talks to the database,
    the provider or the index runs in a state-and-exception monad over
    [World].  The answers of the external collaborators (pyodbc, chromadb,
    the provider SDKs, [json.loads]) are read from an environment [Env]. *)

From stdpp Require Import base list strings gmap sorting.
From Stdlib Require Import ZArith QArith DecimalString Lia.

Open Scope string_scope.
Open Scope Z_scope.

(** ** Python primitives *)

(** The exception classes the services raise or catch.  All of them derive
    from [Exception], so an [except Exception] clause catches each one. *)
Inductive exn : Type :=
| ValueError (msg : string)
| KeyError (key : string)
| NameError (msg : string)
| TypeError (msg : string)
| IndexError (msg : string)
| JSONDecodeError (msg : string)
| Exception (msg : string)
| ExternalError (msg : string).

(** [str(e)]: the message, and for a [KeyError] the repr of the key. *)
Definition str_exn (e : exn) : string :=
  match e with
  | ValueError m | NameError m | TypeError m | IndexError m | JSONDecodeError m
  | Exception m | ExternalError m => m
  | KeyError k => "'" +:+ k +:+ "'"
  end.

Inductive result (A : Type) : Type :=
| Ok (a : A)
| Raise (e : exn).
Arguments Ok {A} a.
Arguments Raise {A} e.

(** [str(n)] for an [int]. *)
Definition str_of_int (z : Z) : string := NilZero.string_of_int (Z.to_int z).

(** The line feed of the templates. *)
Definition nl : string := String (Ascii.ascii_of_nat 10) EmptyString.

(** Truth value of an optional integer or string: [None], [0] and the empty
    string are false. *)
Definition truthy_int (o : option Z) : bool :=
  match o with
  | Some z => negb (z =? 0)
  | None => false
  end.

Definition truthy_str (o : option string) : bool :=
  match o with
  | Some EmptyString => false
  | Some _ => true
  | None => false
  end.

(** What an f-string prints for an optional field. *)
Definition fmt_int (o : option Z) : string :=
  match o with
  | Some z => str_of_int z
  | None => "None"
  end.

Definition fmt_str (o : option string) : string :=
  match o with
  | Some s => s
  | None => "None"
  end.

(** [s.find(sub)]: the lowest index at which [sub] occurs in [s], or -1. *)
Fixpoint find_index (sub s : string) : option nat :=
  if String.prefix sub s then Some 0%nat
  else match s with
       | EmptyString => None
       | String _ s' => S <$> find_index sub s'
       end.

Definition str_find (sub s : string) : Z :=
  match find_index sub s with
  | Some i => Z.of_nat i
  | None => -1
  end.



(** Slice bounds: a negative index counts from the end, and both ends are
    clamped to the sequence. *)
Definition slice_index (len i : Z) : Z :=
  if i <? 0 then Z.max 0 (len + i) else Z.min i len.

(** [s[a:b]] on strings and [l[a:b]] on lists. *)
Definition str_slice (s : string) (a b : Z) : string :=
  let len := Z.of_nat (String.length s) in
  let a' := slice_index len a in
  let b' := slice_index len b in
  String.substring (Z.to_nat a') (Z.to_nat (b' - a')) s.

Definition list_slice {A} (l : list A) (a b : Z) : list A :=
  let len := Z.of_nat (length l) in
  let a' := slice_index len a in
  let b' := slice_index len b in
  take (Z.to_nat (b' - a')) (drop (Z.to_nat a') l).

(** [range(start, stop, step)]. *)
Definition py_range (start stop step : Z) : result (list Z) :=
  if step =? 0 then Raise (ValueError "range() arg 3 must not be zero")
  else
    let n := if 0 <? step
             then (stop - start + step - 1) / step
             else (start - stop - step - 1) / (- step) in
    Ok ((fun k => start + Z.of_nat k * step) <$> seq 0 (Z.to_nat n)).

(** [sep.join(parts)]. *)
Fixpoint str_join (sep : string) (parts : list string) : string :=
  match parts with
  | [] => ""
  | [p] => p
  | p :: rest => p +:+ sep +:+ str_join sep rest
  end.

(** ** Type formatter ([db_object_documenter.py], lines 46-56) *)

Record TypeInfo := {
  data_type : string;
  max_length : Z;
  precision : option Z;
  scale : option Z
}.

Definition _format_type_info (type_info : TypeInfo) : string :=
  let type_str := data_type type_info in
  if negb (max_length type_info =? -1) then
    type_str +:+ "(" +:+ str_of_int (max_length type_info) +:+ ")"
  else if truthy_int (precision type_info) then
    let type_str := type_str +:+ "(" +:+ fmt_int (precision type_info) in
    let type_str :=
      if truthy_int (scale type_info)
      then type_str +:+ "," +:+ fmt_int (scale type_info)
      else type_str in
    type_str +:+ ")"
  else type_str.

(** ** Data model *)

(** Rows of the metadata queries.  A row carries its type description
    ([data_type], [max_length], [precision], [scale]) as attributes of its
    own; they are grouped in a [TypeInfo], which is what the formatter reads. *)
Record ColumnRow := {
  column_name : string;
  column_type : TypeInfo;
  is_nullable : bool;
  column_description : option string
}.

Record IndexRow := {
  index_name : string;
  type_desc : string;
  is_unique : bool;
  index_columns : string
}.

Record ForeignKeyRow := {
  fk_name : string;
  referenced_schema : string;
  referenced_table : string;
  fk_columns : string;
  referenced_columns : string
}.

Record ParamRow := {
  param_name : string;
  param_type : TypeInfo;
  is_output : bool;
  param_description : option string
}.

Record ReturnTypeRow := {
  return_type : string;
  rt_max_length : Z;
  rt_precision : option Z;
  rt_scale : option Z
}.

(** A discovered object: the dict [{"schema_name", "name", "type"}]. *)
Record DbObject := {
  schema_name : string;
  obj_name : string;
  obj_type : string
}.

(** Values of the metadata mapping stored with a document. *)
Inductive MetaValue : Type :=
| MInt (z : Z)
| MBool (b : bool)
| MStr (s : string).

Definition Metadata : Type := list (string * MetaValue).

(** A record of the index: the document and its metadata, kept under the id
    ["schema.name"] in the collection of its object type. *)
Record DocRecord := {
  content : string;
  metadata : Metadata
}.

(** What [collection.query] answers for its single query text: four parallel
    lists (the entries [[0]] of ["ids"], ["documents"], ["metadatas"] and
    ["distances"]). *)
Record QueryResult := {
  ids : list string;
  documents : list string;
  metadatas : list Metadata;
  distances : list Q
}.

(** One search result: the dict [{"id", "content", "metadata", "distance"}]. *)
Record Hit := {
  hit_id : string;
  hit_content : string;
  hit_metadata : Metadata;
  distance : Q
}.

(** Values [json.loads] can return. *)
#[local] Unset Elimination Schemes.
Inductive Json : Type :=
| JNull
| JBool (b : bool)
| JNumber (q : Q)
| JString (s : string)
| JArray (items : list Json)
| JObject (fields : list (string * Json)).
#[local] Set Elimination Schemes.

(** The progress dict of [DatabaseDocumenter]. *)
Inductive Phase : Type :=
| NotStarted
| Initializing
| Processing
| Complete
| Failed.

Definition phase_label (p : Phase) : string :=
  match p with
  | NotStarted => "Not Started"
  | Initializing => "Initializing"
  | Processing => "Processing"
  | Complete => "Complete"
  | Failed => "Failed"
  end.

Record Usage := {
  input_tokens : Z;
  output_tokens : Z;
  total_tokens : Z
}.

Record Progress := {
  current : Z;
  total : Z;
  current_object : string;
  phase : Phase;
  start_time : option nat;
  estimated_time_remaining : option Z;
  cost : Q;
  usage : Usage
}.

(** What an observer of a run can see, newest first in [trace]: every value
    the progress dict takes, and every return of a documenter's [document]. *)
Inductive Event : Type :=
| EvProgress (p : Progress)
| EvDocumented (o : DbObject).

(** ** Python dicts with insertion order *)

Fixpoint dict_get {V} (k : string) (d : list (string * V)) : option V :=
  match d with
  | [] => None
  | (k', v) :: rest => if String.eqb k k' then Some v else dict_get k rest
  end.

(** [d[k] = v]: an existing key keeps its place. *)
Fixpoint dict_set {V} (k : string) (v : V) (d : list (string * V))
  : list (string * V) :=
  match d with
  | [] => [(k, v)]
  | (k', v') :: rest =>
      if String.eqb k k' then (k, v) :: rest else (k', v') :: dict_set k v rest
  end.

(** ** The world and its environment *)

(** The chromadb client holds collections by name; a collection maps ids to
    records.  A collection handle held by Python code names its collection. *)
Abbreviation Collection := (gmap string DocRecord).
Abbreviation Chroma := (gmap string (gmap string DocRecord)).

Record World := {
  clock : nat;                          (* external calls made so far *)
  chroma : Chroma;                      (* the collections of the chromadb client *)
  collections : list (string * string); (* VectorStore.collections: type tag -> handle *)
  progress : Progress;                  (* DatabaseDocumenter.progress *)
  trace : list Event                    (* observations, newest first *)
}.

(** Answers of the external collaborators.  Each external call reads its
    answer at the current [clock] and advances it, so the same call may be
    answered differently at different times.  The module [sql_queries] is
    not part of the sources at hand: each of its query strings is
    identified with the oracle that answers it, and its dict
    [OBJECT_QUERIES] is a field of the environment. *)
Record Env := {
  (* _execute_query on each of the queries of sql_queries.py *)
  db_table_columns : nat -> string -> string -> result (list ColumnRow);
  db_indexes : nat -> string -> string -> result (list IndexRow);
  db_foreign_keys : nat -> string -> string -> result (list ForeignKeyRow);
  db_view_columns : nat -> string -> string -> result (list ColumnRow);
  db_procedure_params : nat -> string -> string -> result (list ParamRow);
  db_function_params : nat -> string -> string -> result (list ParamRow);
  db_function_return_type : nat -> string -> string -> result (list ReturnTypeRow);
  db_object_definition : nat -> string -> string -> result (list (option string));
  (* object discovery: sql_queries.OBJECT_QUERIES, pyodbc.connect, and the
     rows fetched for a query template and a schema filter *)
  OBJECT_QUERIES : list (string * string);
  db_connect : nat -> option exn;
  db_objects : nat -> string -> string -> result (list (string * string * string));
  (* LLMClient: configuration and the provider SDKs *)
  default_provider : string;
  clients : list string;
  anthropic_create : nat -> string -> result string;
  ollama_generate : nat -> string -> result string;
  json_loads : string -> result Json;
  (* chromadb: a call may fail before it takes effect; the ranking of a
     collection for a query text *)
  chroma_fault : nat -> option exn;
  chroma_query : nat -> string -> Collection -> string -> Z -> QueryResult;
  (* int(objects_remaining * (elapsed_seconds / current)) from the start
     time, the present time, the objects remaining and [current] *)
  eta_seconds : nat -> nat -> Z -> Z -> Z
}.

Definition tick (w : World) : World :=
  {| clock := S (clock w); chroma := chroma w; collections := collections w;
     progress := progress w; trace := trace w |}.

Definition set_chroma (c : Chroma) (w : World) : World :=
  {| clock := clock w; chroma := c; collections := collections w;
     progress := progress w; trace := trace w |}.

Definition set_collections (d : list (string * string)) (w : World) : World :=
  {| clock := clock w; chroma := chroma w; collections := d;
     progress := progress w; trace := trace w |}.

(** Assigning to the progress dict, whole or one key: the new value is
    observable. *)
Definition set_progress (p : Progress) (w : World) : World :=
  {| clock := clock w; chroma := chroma w; collections := collections w;
     progress := p; trace := EvProgress p :: trace w |}.

Definition observe (e : Event) (w : World) : World :=
  {| clock := clock w; chroma := chroma w; collections := collections w;
     progress := progress w; trace := e :: trace w |}.

(** ** State and exceptions *)

Definition M (A : Type) : Type := World -> result A * World.

Definition ret {A} (a : A) : M A := fun w => (Ok a, w).

Definition bind {A B} (c : M A) (k : A -> M B) : M B :=
  fun w =>
    match c w with
    | (Ok a, w') => k a w'
    | (Raise e, w') => (Raise e, w')
    end.

Notation "x <- c ;; k" := (bind c (fun x => k))
  (at level 63, c at next level, right associativity).
Notation "c ;;; k" := (bind c (fun _ => k))
  (at level 63, right associativity).

Definition raise {A} (e : exn) : M A := fun w => (Raise e, w).

(** [try: body / except Exception as e: handler e]. *)
Definition try_except {A} (body : M A) (handler : exn -> M A) : M A :=
  fun w =>
    match body w with
    | (Ok a, w') => (Ok a, w')
    | (Raise e, w') => handler e w'
    end.

(** A pure computation that may raise. *)
Definition lift {A} (r : result A) : M A := fun w => (r, w).

Definition modify (f : World -> World) : M unit := fun w => (Ok tt, f w).

Definition get {A} (f : World -> A) : M A := fun w => (Ok (f w), w).

(** A call that leaves the process: answered by the environment at the
    present time. *)
Definition external {A} (answer : nat -> result A) : M A :=
  fun w => (answer (clock w), tick w).

(** [for x in xs: body x]. *)
Fixpoint for_each {A} (xs : list A) (body : A -> M unit) : M unit :=
  match xs with
  | [] => ret tt
  | x :: rest => body x ;;; for_each rest body
  end.

(** ** The chromadb client *)

(** A call on the client either fails before taking effect (a fault of the
    environment) or runs its operation on the collections. *)
Definition chroma_call {A} (E : Env) (op : Chroma -> result (A * Chroma)) : M A :=
  fun w =>
    let w1 := tick w in
    match chroma_fault E (clock w) with
    | Some e => (Raise e, w1)
    | None =>
        match op (chroma w1) with
        | Ok (a, c) => (Ok a, set_chroma c w1)
        | Raise e => (Raise e, w1)
        end
    end.

Definition no_collection {A} (name : string) : result A :=
  Raise (ValueError ("Collection " +:+ name +:+ " does not exist.")).

(** [client.get_or_create_collection(name)] *)
Definition get_or_create_collection (E : Env) (name : string) : M string :=
  chroma_call E (fun c =>
    match c !! name with
    | Some _ => Ok (name, c)
    | None => Ok (name, <[name := ∅]> c)
    end).

(** [client.create_collection(name)] *)
Definition create_collection (E : Env) (name : string) : M string :=
  chroma_call E (fun c =>
    match c !! name with
    | Some _ => Raise (ValueError ("Collection " +:+ name +:+ " already exists"))
    | None => Ok (name, <[name := ∅]> c)
    end).

(** [client.delete_collection(name)] *)
Definition delete_collection (E : Env) (name : string) : M unit :=
  chroma_call E (fun c =>
    match c !! name with
    | Some _ => Ok (tt, delete name c)
    | None => no_collection name
    end).

(** [client.reset()]: empties the database, dropping every collection. *)
Definition client_reset (E : Env) : M unit :=
  chroma_call E (fun _ => Ok (tt, ∅)).

(** [collection.count()] *)
Definition collection_count (E : Env) (handle : string) : M Z :=
  chroma_call E (fun c =>
    match c !! handle with
    | Some docs => Ok (Z.of_nat (size docs), c)
    | None => no_collection handle
    end).

(** [collection.upsert(ids=[id], documents=[content], metadatas=[meta])] *)
Definition collection_upsert (E : Env) (handle id : string) (rec : DocRecord)
  : M unit :=
  chroma_call E (fun c =>
    match c !! handle with
    | Some docs => Ok (tt, <[handle := <[id := rec]> docs]> c)
    | None => no_collection handle
    end).

(** [collection.query(query_texts=[query], n_results=n)] *)
Definition collection_query (E : Env) (handle query : string) (n : Z)
  : M QueryResult :=
  fun w =>
    chroma_call E (fun c =>
      match c !! handle with
      | Some docs => Ok (chroma_query E (clock w) handle docs query n, c)
      | None => no_collection handle
      end) w.

(** ** VectorStore ([vector_store.py]) *)

(** [self.collections[key]] *)
Definition collection_of (key : string) : M string :=
  fun w =>
    match dict_get key (collections w) with
    | Some handle => (Ok handle, w)
    | None => (Raise (KeyError key), w)
    end.

(** [self.collections[key] = handle] *)
Definition set_collection (key handle : string) : M unit :=
  modify (fun w => set_collections (dict_set key handle (collections w)) w).

(** [__init__], lines 9-42: the client and the embedding function are
    built, then the four collections are fetched or created. *)
Definition VectorStore_init (E : Env) : M unit :=
  try_except
    (chroma_call E (fun c => Ok (tt, c)) ;;;
     chroma_call E (fun c => Ok (tt, c)) ;;;
     t <- get_or_create_collection E "tables" ;;
     v <- get_or_create_collection E "views" ;;
     p <- get_or_create_collection E "procedures" ;;
     f <- get_or_create_collection E "functions" ;;
     modify (set_collections
               [("table", t); ("view", v); ("procedure", p); ("function", f)]))
    raise.

(** [get_stats], lines 44-60 *)
Definition get_stats (E : Env) : M (list (string * Z)) :=
  try_except
    (t <- (h <- collection_of "table" ;; collection_count E h) ;;
     v <- (h <- collection_of "view" ;; collection_count E h) ;;
     p <- (h <- collection_of "procedure" ;; collection_count E h) ;;
     f <- (h <- collection_of "function" ;; collection_count E h) ;;
     ret [("table", t); ("view", v); ("procedure", p); ("function", f)])
    (fun _ =>
       ret [("table", 0); ("view", 0); ("procedure", 0); ("function", 0)]).

(** [add_documentation], lines 62-80 *)
Definition add_documentation (E : Env) (schema name obj_type content : string)
    (metadata : Metadata) : M unit :=
  try_except
    (collection <- collection_of obj_type ;;
     let doc_id := schema +:+ "." +:+ name in
     collection_upsert E collection doc_id
       {| content := content;
          metadata := ([("schema", MStr schema); ("name", MStr name);
                        ("type", MStr obj_type)] ++ metadata)%list |})
    raise.

(** Lines 96-102: one result per index of ["ids"][0]; reading another of the
    parallel lists past its end is an [IndexError]. *)
Fixpoint format_results (sr : QueryResult) (indices : list nat)
  : result (list Hit) :=
  match indices with
  | [] => Ok []
  | i :: rest =>
      match ids sr !! i, documents sr !! i, metadatas sr !! i,
            distances sr !! i with
      | Some id, Some doc, Some meta, Some d =>
          match format_results sr rest with
          | Ok hits =>
              Ok ({| hit_id := id; hit_content := doc; hit_metadata := meta;
                     distance := d |} :: hits)
          | Raise e => Raise e
          end
      | _, _, _, _ => Raise (IndexError "list index out of range")
      end
  end.

(** Lines 89-102: the body of the loop for one collection, as the results
    it appends.  An empty collection is not queried. *)
Definition search_collection (E : Env) (query : string) (n_results : Z)
    (collection : string) : M (list Hit) :=
  count <- collection_count E collection ;;
  if 0 <? count then
    search_results <- collection_query E collection query n_results ;;
    lift (format_results search_results (seq 0 (length (ids search_results))))
  else ret [].

(** Lines 88-102: the loop over the collections, appending to [results]. *)
Fixpoint search_collections (E : Env) (query : string) (n_results : Z)
    (items : list (string * string)) (results : list Hit) : M (list Hit) :=
  match items with
  | [] => ret results
  | (obj_type, collection) :: rest =>
      hits <- search_collection E query n_results collection ;;
      search_collections E query n_results rest (results ++ hits)%list
  end.

(** [results.sort(key=lambda x: x["distance"])]: a stable sort, ascending.
    An element is put before the first one that is not smaller, so that
    equal distances keep their order. *)
Fixpoint insert_by_distance (h : Hit) (sorted : list Hit) : list Hit :=
  match sorted with
  | [] => [h]
  | x :: rest =>
      if Qle_bool (distance h) (distance x) then h :: sorted
      else x :: insert_by_distance h rest
  end.

Definition sort_by_distance (results : list Hit) : list Hit :=
  foldr insert_by_distance [] results.

(** [search], lines 82-111 *)
Definition search (E : Env) (query : string) (n_results : Z) : M (list Hit) :=
  try_except
    (items <- get collections ;;
     results <- search_collections E query n_results items [] ;;
     let results := sort_by_distance results in
     ret (list_slice results 0 n_results))
    raise.

(** [clear_collections], lines 153-166 *)
Definition clear_collections (E : Env) : M unit :=
  try_except
    (items <- get collections ;;
     for_each items (fun '(obj_type, collection) =>
       let name := collection in
       delete_collection E name ;;;
       fresh <- create_collection E name ;;
       set_collection obj_type fresh))
    raise.

(** [clear], lines 113-151.  [cleanup_required] is true whenever the handler
    runs: it is set on entering the [try] block and cleared only after the
    last call of the block that can raise. *)
Definition clear (E : Env) : M unit :=
  try_except
    (clear_collections E ;;;
     client_reset E)
    (fun e =>
       let error_msg := "Failed to clear vector store: " +:+ str_exn e in
       try_except
         (for_each ["table"; "view"; "procedure"; "function"] (fun obj_type =>
            handle <- get_or_create_collection E (obj_type +:+ "s") ;;
            set_collection obj_type handle))
         (fun cleanup_error =>
            raise (Exception (error_msg +:+ ". Additionally, cleanup failed: "
                              +:+ str_exn cleanup_error))) ;;;
       raise (Exception error_msg)).

(** ** LLMClient ([llm_client.py]) *)

Definition configured (E : Env) (provider : string) : bool :=
  existsb (String.eqb provider) (clients E).

(** [generate_response], lines 74-96 *)
Definition generate_response (E : Env) (prompt : string)
    (provider : option string) : M string :=
  let provider :=
    if truthy_str provider then fmt_str provider else default_provider E in
  try_except
    (if String.eqb provider "anthropic" then
       if configured E "anthropic"
       then external (fun t => anthropic_create E t prompt)
       else raise (KeyError "anthropic")
     else if String.eqb provider "ollama" then
       if configured E "ollama"
       then external (fun t => ollama_generate E t prompt)
       else raise (KeyError "ollama")
     else raise (ValueError ("Unsupported provider: " +:+ provider)))
    raise.

(** The prompts of lines 98-153: the lines of each template, the document in
    the third. *)
Definition analysis_prompt (intro : string) (doc : string)
    (requests : list string) : string :=
  str_join nl ([intro; ""; doc; ""; "Please provide:"] ++ requests ++ [""])%list.

Definition analyze_table (E : Env) (doc : string) (provider : option string)
  : M string :=
  generate_response E
    (analysis_prompt
       "Analyze this SQL Server table structure and provide a clear, technical description:"
       doc
       ["1. A brief overview of the table's purpose";
        "2. Key structural features (primary key, important columns)";
        "3. Relationships with other tables";
        "4. Any performance considerations"])
    provider.

Definition analyze_view (E : Env) (doc : string) (provider : option string)
  : M string :=
  generate_response E
    (analysis_prompt
       "Analyze this SQL Server view definition and provide a clear, technical description:"
       doc
       ["1. A brief overview of the view's purpose";
        "2. The main tables/views it references";
        "3. Any important transformations or calculations";
        "4. Usage considerations"])
    provider.

Definition analyze_procedure (E : Env) (doc : string)
    (provider : option string) : M string :=
  generate_response E
    (analysis_prompt
       "Analyze this SQL Server stored procedure and provide a clear, technical description:"
       doc
       ["1. A brief overview of the procedure's purpose";
        "2. Description of input/output parameters";
        "3. Key operations and logic flow";
        "4. Important tables affected";
        "5. Any performance considerations"])
    provider.

Definition analyze_function (E : Env) (doc : string)
    (provider : option string) : M string :=
  generate_response E
    (analysis_prompt
       "Analyze this SQL Server function and provide a clear, technical description:"
       doc
       ["1. A brief overview of the function's purpose";
        "2. Description of parameters and return value";
        "3. Key calculations or operations";
        "4. Usage considerations"])
    provider.





(** What [__init__] reads and builds, lines 11-32: the parsed file
    [llm_config.json] (opening or parsing it may fail), with the entry
    [default_provider] if it has one and, under [providers], the
    configuration of each provider; the environment variable; and the
    constructors of the two provider clients, which may raise.  The entries
    are taken to have the types the code expects. *)
Record ProviderConfig := {
  api_key : option string
}.

Record LLMConfig := {
  cfg_default_provider : option string;
  cfg_providers : option (list (string * ProviderConfig))
}.

Record Startup := {
  llm_config_json : result LLMConfig;
  ANTHROPIC_API_KEY : option string;
  new_Anthropic : string -> option exn;
  new_OllamaClient : ProviderConfig -> option exn
}.

(** The attributes [default_provider] and [clients] (its keys, in order of
    insertion) of a client that was built. *)
Record LLMClient := {
  self_default_provider : string;
  self_clients : list string
}.

(** [a or b] on optional strings. *)
Definition py_or (a b : option string) : option string :=
  if truthy_str a then a else b.

(** [__init__], lines 11-32 *)
Definition LLMClient_init (startup : Startup) : result LLMClient :=
  match llm_config_json startup with
  | Raise e => Raise e
  | Ok config =>
      let default_provider :=
        match cfg_default_provider config with
        | Some p => p
        | None => "anthropic"
        end in
      match cfg_providers config with
      | None => Raise (KeyError "providers")
      | Some providers =>
          let with_anthropic : result (list string) :=
            match dict_get "anthropic" providers with
            | Some anthropic_config =>
                let key := py_or (api_key anthropic_config)
                                 (ANTHROPIC_API_KEY startup) in
                if truthy_str key then
                  match new_Anthropic startup (fmt_str key) with
                  | Some e => Raise e
                  | None => Ok ["anthropic"]
                  end
                else Ok []
            | None => Ok []
            end in
          match with_anthropic with
          | Raise e => Raise e
          | Ok clients =>
              let with_ollama : result (list string) :=
                match dict_get "ollama" providers with
                | Some ollama_config =>
                    match new_OllamaClient startup ollama_config with
                    | Some e => Raise e
                    | None => Ok (clients ++ ["ollama"])%list
                    end
                | None => Ok clients
                end in
              match with_ollama with
              | Raise e => Raise e
              | Ok [] => Raise (ValueError "No LLM providers configured")
              | Ok clients =>
                  Ok {| self_default_provider := default_provider;
                        self_clients := clients |}
              end
          end
      end
  end.

(** The answers to the connection tests: the row of [SELECT @@VERSION],
    the model and the text of the reply to ["Say hello!"], and the report
    of the Ollama client's own test. *)
Record Probes := {
  db_version : nat -> result string;
  anthropic_hello : nat -> result (string * string);
  ollama_test_connection : nat -> result Json
}.

(** [LLMClient.test_connection], lines 39-72 *)
Definition LLMClient_test_connection (E : Env) (P : Probes)
    (provider : option string) : M Json :=
  let provider :=
    if truthy_str provider then fmt_str provider else default_provider E in
  try_except
    (if negb (configured E provider) then
       raise (ValueError ("Provider " +:+ provider +:+ " not configured"))
     else if String.eqb provider "anthropic" then
       response <- external (anthropic_hello P) ;;
       ret (JObject [("provider", JString provider);
                     ("model", JString response.1);
                     ("response", JString response.2)])
     else if String.eqb provider "ollama" then
       external (ollama_test_connection P)
     else raise (ValueError ("Unsupported provider: " +:+ provider)))
    raise.

(** ** DatabaseObjectDocumenter ([db_object_documenter.py]) *)

(** [_execute_query], lines 26-35: one round trip to the database. *)
Definition _execute_query {A} (answer : nat -> result A) : M A :=
  try_except (external answer) raise.

(** [_get_definition], lines 37-44 *)
Definition _get_definition (E : Env) (schema name : string)
  : M (option string) :=
  try_except
    (results <- _execute_query (fun t => db_object_definition E t schema name) ;;
     ret (match results with
          | first :: _ => first
          | [] => None
          end))
    (fun _ => ret None).

(** [_store_documentation], lines 58-66 *)
Definition _store_documentation (E : Env) (schema name content : string)
    (metadata : Metadata) (obj_type : string) : M unit :=
  add_documentation E schema name obj_type content metadata.

(** The dict [analysis_methods] of lines 75-80. *)
Definition analysis_methods (obj_type : string)
  : option (Env -> string -> option string -> M string) :=
  if String.eqb obj_type "table" then Some analyze_table
  else if String.eqb obj_type "view" then Some analyze_view
  else if String.eqb obj_type "procedure" then Some analyze_procedure
  else if String.eqb obj_type "function" then Some analyze_function
  else None.

(** [_get_llm_analysis], lines 72-90 *)
Definition _get_llm_analysis (E : Env) (doc obj_type : string)
  : M (option string) :=
  try_except
    (match analysis_methods obj_type with
     | None => ret None
     | Some analyze => analysis <- analyze E doc None ;; ret (Some analysis)
     end)
    (fun _ => ret None).

(** The separator under which the narrative is appended. *)
Definition analysis_separator : string := nl +:+ nl +:+ "Analysis:" +:+ nl.

(** The last steps of every [document]: the analysis is requested, appended
    when there is one, and the document is stored with its metadata
    ([table_documenter.py], lines 54-68, and the same lines of the other
    three documenters). *)
Definition enrich_and_store (E : Env) (schema name obj_type : string)
    (prepared : string * Metadata) : M unit :=
  let '(doc, metadata) := prepared in
  analysis <- _get_llm_analysis E doc obj_type ;;
  let doc :=
    if truthy_str analysis
    then doc +:+ analysis_separator +:+ fmt_str analysis
    else doc in
  _store_documentation E schema name doc metadata obj_type.

(** ** The four documenters *)

(** One pass of the loop over the columns ([table_documenter.py], lines
    30-35; [view_documenter.py], lines 29-34). *)
Definition add_column (doc : string) (col : ColumnRow) : string :=
  let doc := doc +:+ nl +:+ column_name col +:+ " ("
                 +:+ _format_type_info (column_type col) +:+ ")" in
  let doc := if negb (is_nullable col) then doc +:+ " NOT NULL" else doc in
  if truthy_str (column_description col)
  then doc +:+ nl +:+ "  Description: " +:+ fmt_str (column_description col)
  else doc.

Definition add_index (doc : string) (idx : IndexRow) : string :=
  let doc := doc +:+ nl +:+ index_name idx +:+ " (" +:+ type_desc idx +:+ ")" in
  let doc := if is_unique idx then doc +:+ " UNIQUE" else doc in
  doc +:+ nl +:+ "  Columns: " +:+ index_columns idx.

Definition add_foreign_key (doc : string) (fk : ForeignKeyRow) : string :=
  let doc := doc +:+ nl +:+ fk_name fk in
  let doc := doc +:+ nl +:+ "  References: " +:+ referenced_schema fk +:+ "."
                 +:+ referenced_table fk in
  doc +:+ nl +:+ "  Columns: " +:+ fk_columns fk +:+ " -> "
      +:+ referenced_columns fk.

(** [table_documenter.py], lines 27-52: the document of a table. *)
Definition table_doc (schema name : string) (columns : list ColumnRow)
    (indexes : list IndexRow) (foreign_keys : list ForeignKeyRow) : string :=
  let doc := "Table: " +:+ schema +:+ "." +:+ name +:+ nl +:+ nl
                 +:+ "Columns:" +:+ nl in
  let doc := fold_left add_column columns doc in
  let doc :=
    match indexes with
    | [] => doc
    | _ => fold_left add_index indexes (doc +:+ nl +:+ nl +:+ "Indexes:" +:+ nl)
    end in
  match foreign_keys with
  | [] => doc
  | _ => fold_left add_foreign_key foreign_keys
           (doc +:+ nl +:+ nl +:+ "Foreign Keys:" +:+ nl)
  end.

(** Lines 18-52 and the metadata of lines 62-66. *)
Definition TableDocumenter_prepare (E : Env) (schema name : string)
  : M (string * Metadata) :=
  columns <- _execute_query (fun t => db_table_columns E t schema name) ;;
  indexes <- _execute_query (fun t => db_indexes E t schema name) ;;
  foreign_keys <- _execute_query (fun t => db_foreign_keys E t schema name) ;;
  ret (table_doc schema name columns indexes foreign_keys,
       [("column_count", MInt (Z.of_nat (length columns)));
        ("has_indexes", MBool (match indexes with [] => false | _ => true end));
        ("has_foreign_keys",
         MBool (match foreign_keys with [] => false | _ => true end))]).

(** [TableDocumenter.document], lines 12-72 *)
Definition TableDocumenter_document (E : Env) (schema name : string) : M unit :=
  try_except
    (prepared <- TableDocumenter_prepare E schema name ;;
     enrich_and_store E schema name "table" prepared)
    raise.

(** [view_documenter.py], lines 26-37: the document of a view. *)
Definition view_doc (schema name : string) (columns : list ColumnRow)
    (definition : option string) : string :=
  let doc := "View: " +:+ schema +:+ "." +:+ name +:+ nl +:+ nl
                 +:+ "Columns:" +:+ nl in
  let doc := fold_left add_column columns doc in
  doc +:+ nl +:+ nl +:+ "Definition:" +:+ nl +:+ fmt_str definition.

(** Lines 17-37 and the metadata of lines 47-50. *)
Definition ViewDocumenter_prepare (E : Env) (schema name : string)
  : M (string * Metadata) :=
  columns <- _execute_query (fun t => db_view_columns E t schema name) ;;
  definition <- _get_definition E schema name ;;
  if negb (truthy_str definition) then
    raise (ValueError ("Could not retrieve definition for view "
                       +:+ schema +:+ "." +:+ name))
  else
    ret (view_doc schema name columns definition,
         [("column_count", MInt (Z.of_nat (length columns)));
          ("definition_length",
           MInt (Z.of_nat (String.length (fmt_str definition))))]).

(** [ViewDocumenter.document], lines 12-56 *)
Definition ViewDocumenter_document (E : Env) (schema name : string) : M unit :=
  try_except
    (prepared <- ViewDocumenter_prepare E schema name ;;
     enrich_and_store E schema name "view" prepared)
    raise.

(** One pass of the loop over the parameters of a procedure
    ([procedure_documenter.py], lines 35-40). *)
Definition add_procedure_param (doc : string) (param : ParamRow) : string :=
  let doc := doc +:+ nl +:+ param_name param +:+ " ("
                 +:+ _format_type_info (param_type param) +:+ ")" in
  let doc := if is_output param then doc +:+ " OUTPUT" else doc in
  if truthy_str (param_description param)
  then doc +:+ nl +:+ "  Description: " +:+ fmt_str (param_description param)
  else doc.

(** [procedure_documenter.py], lines 30-43: the document of a procedure. *)
Definition procedure_doc (schema name : string) (parameters : list ParamRow)
    (definition : option string) : string :=
  let doc := "Stored Procedure: " +:+ schema +:+ "." +:+ name +:+ nl in
  let doc :=
    match parameters with
    | [] => doc
    | _ => fold_left add_procedure_param parameters
             (doc +:+ nl +:+ "Parameters:" +:+ nl)
    end in
  doc +:+ nl +:+ nl +:+ "Definition:" +:+ nl +:+ fmt_str definition.

(** Lines 18-43 and the metadata of lines 53-56. *)
Definition ProcedureDocumenter_prepare (E : Env) (schema name : string)
  : M (string * Metadata) :=
  parameters <- _execute_query (fun t => db_procedure_params E t schema name) ;;
  definition <- _get_definition E schema name ;;
  if negb (truthy_str definition) then
    raise (ValueError ("Could not retrieve definition for procedure "
                       +:+ schema +:+ "." +:+ name))
  else
    ret (procedure_doc schema name parameters definition,
         [("parameter_count", MInt (Z.of_nat (length parameters)));
          ("definition_length",
           MInt (Z.of_nat (String.length (fmt_str definition))))]).

(** [ProcedureDocumenter.document], lines 12-62 *)
Definition ProcedureDocumenter_document (E : Env) (schema name : string)
  : M unit :=
  try_except
    (prepared <- ProcedureDocumenter_prepare E schema name ;;
     enrich_and_store E schema name "procedure" prepared)
    raise.

(** One pass of the loop over the parameters of a function
    ([function_documenter.py], lines 55-58). *)
Definition add_function_param (doc : string) (param : ParamRow) : string :=
  let doc := doc +:+ nl +:+ param_name param +:+ " ("
                 +:+ _format_type_info (param_type param) +:+ ")" in
  if truthy_str (param_description param)
  then doc +:+ nl +:+ "  Description: " +:+ fmt_str (param_description param)
  else doc.

(** [function_documenter.py], lines 40-61: the document of a function. *)
Definition function_doc (schema name : string) (parameters : list ParamRow)
    (ret_type : ReturnTypeRow) (definition : option string) : string :=
  let doc := "Function: " +:+ schema +:+ "." +:+ name +:+ nl in
  let doc := doc +:+ nl +:+ "Returns: " +:+ return_type ret_type in
  let doc :=
    if negb (rt_max_length ret_type =? -1) then
      doc +:+ "(" +:+ str_of_int (rt_max_length ret_type) +:+ ")"
    else if truthy_int (rt_precision ret_type) then
      let doc := doc +:+ "(" +:+ fmt_int (rt_precision ret_type) in
      let doc :=
        if truthy_int (rt_scale ret_type)
        then doc +:+ "," +:+ fmt_int (rt_scale ret_type)
        else doc in
      doc +:+ ")"
    else doc in
  let doc :=
    match parameters with
    | [] => doc
    | _ => fold_left add_function_param parameters
             (doc +:+ nl +:+ nl +:+ "Parameters:" +:+ nl)
    end in
  doc +:+ nl +:+ nl +:+ "Definition:" +:+ nl +:+ fmt_str definition.

(** Lines 18-61 and the metadata of lines 71-75. *)
Definition FunctionDocumenter_prepare (E : Env) (schema name : string)
  : M (string * Metadata) :=
  parameters <- _execute_query (fun t => db_function_params E t schema name) ;;
  return_type_result <-
    _execute_query (fun t => db_function_return_type E t schema name) ;;
  match return_type_result with
  | [] =>
      raise (ValueError ("Could not retrieve return type for function "
                         +:+ schema +:+ "." +:+ name))
  | ret_type :: _ =>
      definition <- _get_definition E schema name ;;
      if negb (truthy_str definition) then
        raise (ValueError ("Could not retrieve definition for function "
                           +:+ schema +:+ "." +:+ name))
      else
        ret (function_doc schema name parameters ret_type definition,
             [("parameter_count", MInt (Z.of_nat (length parameters)));
              ("definition_length",
               MInt (Z.of_nat (String.length (fmt_str definition))));
              ("return_type", MStr (return_type ret_type))])
  end.

(** [FunctionDocumenter.document], lines 12-81 *)
Definition FunctionDocumenter_document (E : Env) (schema name : string)
  : M unit :=
  try_except
    (prepared <- FunctionDocumenter_prepare E schema name ;;
     enrich_and_store E schema name "function" prepared)
    raise.

(** The documenter classes, the tag under which each stores and asks for an
    analysis, and dispatch on the class. *)
Inductive Documenter : Type :=
| TableDocumenter
| ViewDocumenter
| ProcedureDocumenter
| FunctionDocumenter.

Definition tag (cls : Documenter) : string :=
  match cls with
  | TableDocumenter => "table"
  | ViewDocumenter => "view"
  | ProcedureDocumenter => "procedure"
  | FunctionDocumenter => "function"
  end.

Definition prepare (E : Env) (cls : Documenter) (schema name : string)
  : M (string * Metadata) :=
  match cls with
  | TableDocumenter => TableDocumenter_prepare E schema name
  | ViewDocumenter => ViewDocumenter_prepare E schema name
  | ProcedureDocumenter => ProcedureDocumenter_prepare E schema name
  | FunctionDocumenter => FunctionDocumenter_prepare E schema name
  end.

Definition document (E : Env) (cls : Documenter) (schema name : string)
  : M unit :=
  match cls with
  | TableDocumenter => TableDocumenter_document E schema name
  | ViewDocumenter => ViewDocumenter_document E schema name
  | ProcedureDocumenter => ProcedureDocumenter_document E schema name
  | FunctionDocumenter => FunctionDocumenter_document E schema name
  end.

(** ** DatabaseDocumenter ([documenter.py]) *)

Definition initial_progress : Progress :=
  {| current := 0; total := 0; current_object := ""; phase := NotStarted;
     start_time := None; estimated_time_remaining := None; cost := 0%Q;
     usage := {| input_tokens := 0; output_tokens := 0; total_tokens := 0 |} |}.

Definition with_current (n : Z) (p : Progress) : Progress :=
  {| current := n; total := total p; current_object := current_object p;
     phase := phase p; start_time := start_time p;
     estimated_time_remaining := estimated_time_remaining p;
     cost := cost p; usage := usage p |}.

Definition with_total (n : Z) (p : Progress) : Progress :=
  {| current := current p; total := n; current_object := current_object p;
     phase := phase p; start_time := start_time p;
     estimated_time_remaining := estimated_time_remaining p;
     cost := cost p; usage := usage p |}.

Definition with_current_object (s : string) (p : Progress) : Progress :=
  {| current := current p; total := total p; current_object := s;
     phase := phase p; start_time := start_time p;
     estimated_time_remaining := estimated_time_remaining p;
     cost := cost p; usage := usage p |}.

Definition with_phase (ph : Phase) (p : Progress) : Progress :=
  {| current := current p; total := total p;
     current_object := current_object p; phase := ph;
     start_time := start_time p;
     estimated_time_remaining := estimated_time_remaining p;
     cost := cost p; usage := usage p |}.

Definition with_start_time (t : option nat) (p : Progress) : Progress :=
  {| current := current p; total := total p;
     current_object := current_object p; phase := phase p; start_time := t;
     estimated_time_remaining := estimated_time_remaining p;
     cost := cost p; usage := usage p |}.

Definition with_estimated_time_remaining (s : option Z) (p : Progress)
  : Progress :=
  {| current := current p; total := total p;
     current_object := current_object p; phase := phase p;
     start_time := start_time p; estimated_time_remaining := s;
     cost := cost p; usage := usage p |}.

(** [self.progress[key] = value] *)
Definition update_progress (f : Progress -> Progress) : M unit :=
  modify (fun w => set_progress (f (progress w)) w).

(** [reset_progress], lines 45-60 *)
Definition reset_progress : M unit := modify (set_progress initial_progress).

(** [clear_documentation], lines 66-69 *)
Definition clear_documentation (E : Env) : M unit :=
  clear E ;;; reset_progress.

(** The dict [documenters] of lines 91-96. *)
Definition documenters (obj_type : string) : option Documenter :=
  if String.eqb obj_type "table" then Some TableDocumenter
  else if String.eqb obj_type "view" then Some ViewDocumenter
  else if String.eqb obj_type "procedure" then Some ProcedureDocumenter
  else if String.eqb obj_type "function" then Some FunctionDocumenter
  else None.

(** Line 165: the dict made of a fetched row. *)
Definition object_of_row (row : string * string * string) : DbObject :=
  {| schema_name := row.1.1; obj_name := row.1.2; obj_type := row.2 |}.

(** Lines 156-167: the loop of [_get_database_objects] over the requested
    types, extending [objects]. *)
Fixpoint discover (E : Env) (schema_filter : string) (types : list string)
    (objects : list DbObject) : M (list DbObject) :=
  match types with
  | [] => ret objects
  | obj_type :: rest =>
      match dict_get obj_type (OBJECT_QUERIES E) with
      | None => discover E schema_filter rest objects
      | Some template =>
          rows <- external (fun t => db_objects E t template schema_filter) ;;
          discover E schema_filter rest (objects ++ (object_of_row <$> rows))%list
      end
  end.

(** [_get_database_objects], lines 141-173 *)
Definition _get_database_objects (E : Env) (object_types : option (list string))
    (schemas : option (list string)) : M (list DbObject) :=
  try_except
    (let schema_filter :=
       match schemas with
       | Some (s :: rest) =>
           "AND s.name IN ("
           +:+ str_join "," ((fun s => "'" +:+ s +:+ "'") <$> (s :: rest))
           +:+ ")"
       | _ => ""
       end in
     external (fun t => match db_connect E t with
                        | Some e => Raise e
                        | None => Ok tt
                        end) ;;;
     let types :=
       match object_types with
       | Some (t :: rest) => t :: rest
       | _ => (OBJECT_QUERIES E).*1
       end in
     discover E schema_filter types [])
    raise.

(** Lines 102-129: the body of the loop over the objects of a batch. *)
Definition document_object (E : Env) (obj : DbObject) : M unit :=
  update_progress
    (with_current_object (schema_name obj +:+ "." +:+ obj_name obj)) ;;;
  match documenters (obj_type obj) with
  | None => ret tt
  | Some documenter_class =>
      document E documenter_class (schema_name obj) (obj_name obj) ;;;
      modify (observe (EvDocumented obj)) ;;;
      update_progress (fun p => with_current (current p + 1) p) ;;;
      p <- get progress ;;
      if 1 <? current p then
        now <- get clock ;;
        match start_time p with
        | Some started =>
            update_progress
              (with_estimated_time_remaining
                 (Some (eta_seconds E started now (total p - current p)
                          (current p))))
        | None =>
            raise (TypeError "unsupported operand type(s) for -: 'datetime.datetime' and 'NoneType'")
        end
      else ret tt
  end.

(** [document_batch], lines 71-139 *)
Definition document_batch (E : Env) (object_types : list string)
    (schemas : option (list string)) (batch_size : Z)
    (include_llm_analysis : bool) : M unit :=
  try_except
    (reset_progress ;;;
     now <- get clock ;;
     update_progress (with_start_time (Some now)) ;;;
     update_progress (with_phase Initializing) ;;;
     objects <- _get_database_objects E (Some object_types) schemas ;;
     update_progress (with_total (Z.of_nat (length objects))) ;;;
     update_progress (with_phase Processing) ;;;
     starts <- lift (py_range 0 (Z.of_nat (length objects)) batch_size) ;;
     for_each starts (fun i =>
       let batch := list_slice objects i (i + batch_size) in
       for_each batch (document_object E)) ;;;
     update_progress (with_phase Complete))
    (fun e =>
       update_progress (with_phase Failed) ;;;
       raise e).

(** [search_documentation], lines 210-212 *)
Definition search_documentation (E : Env) (query : string) (n_results : Z)
  : M (list Hit) :=
  search E query n_results.

(** [get_documentation_summary], lines 214-230 *)
Definition get_documentation_summary (E : Env) (schema name obj_type : string)
  : M string :=
  try_except
    (results <- search E (schema +:+ "." +:+ name +:+ " " +:+ obj_type) 1 ;;
     match results with
     | first :: _ =>
         let doc := hit_content first in
         let analysis_index := str_find (nl +:+ nl +:+ "Analysis:") doc in
         let doc :=
           if -1 <? analysis_index then str_slice doc 0 analysis_index
           else doc in
         ret doc
     | [] =>
         ret ("No documentation found for " +:+ obj_type +:+ " " +:+ schema
              +:+ "." +:+ name)
     end)
    (fun e => ret ("Error generating summary: " +:+ str_exn e)).

(** [DatabaseDocumenter.test_connection], lines 175-208 *)
Definition test_connection (E : Env) (P : Probes) : M Json :=
  try_except
    (external (fun t => match db_connect E t with
                        | Some e => Raise e
                        | None => Ok tt
                        end) ;;;
     version <- external (db_version P) ;;
     try_except
       (llm_test <- LLMClient_test_connection E P None ;;
        ret (JObject [("connected", JBool true);
                      ("database_version", JString version);
                      ("llm_status", llm_test)]))
       (fun llm_error =>
          ret (JObject [("connected", JBool true);
                        ("database_version", JString version);
                        ("llm_status",
                         JObject [("error", JString (str_exn llm_error))])])))
    (fun e =>
       ret (JObject [("connected", JBool false);
                     ("error", JString (str_exn e))])).

(** ** Worked environments *)

(** The environment [E] with another answer to the definition query. *)
Definition with_object_definition
    (answer : nat -> string -> string -> result (list (option string)))
    (E : Env) : Env :=
  {| db_table_columns := db_table_columns E;
     db_indexes := db_indexes E;
     db_foreign_keys := db_foreign_keys E;
     db_view_columns := db_view_columns E;
     db_procedure_params := db_procedure_params E;
     db_function_params := db_function_params E;
     db_function_return_type := db_function_return_type E;
     db_object_definition := answer;
     OBJECT_QUERIES := OBJECT_QUERIES E;
     db_connect := db_connect E;
     db_objects := db_objects E;
     default_provider := default_provider E;
     clients := clients E;
     anthropic_create := anthropic_create E;
     ollama_generate := ollama_generate E;
     json_loads := json_loads E;
     chroma_fault := chroma_fault E;
     chroma_query := chroma_query E;
     eta_seconds := eta_seconds E |}.

(** A database whose tables have one [int] column and whose functions
    return [int]; the definition query, the discovered objects, the
    provider's reply, the faults of the index and its rankings are given. *)
Definition example_env
    (definition : nat -> string -> string -> result (list (option string)))
    (objects : string -> list (string * string * string))
    (reply : nat -> string -> result string)
    (fault : nat -> option exn)
    (ranking : string -> Collection -> QueryResult) : Env :=
  let int_type := {| data_type := "int"; max_length := 4;
                     precision := Some 10; scale := Some 0 |} in
  let id_column := {| column_name := "id"; column_type := int_type;
                      is_nullable := false; column_description := None |} in
  {| db_table_columns := fun _ _ _ => Ok [id_column];
     db_indexes := fun _ _ _ => Ok [];
     db_foreign_keys := fun _ _ _ => Ok [];
     db_view_columns := fun _ _ _ => Ok [id_column];
     db_procedure_params := fun _ _ _ => Ok [];
     db_function_params := fun _ _ _ => Ok [];
     db_function_return_type := fun _ _ _ =>
       Ok [{| return_type := "int"; rt_max_length := 4;
              rt_precision := Some 10; rt_scale := Some 0 |}];
     db_object_definition := definition;
     OBJECT_QUERIES := [("table", "tables {schema_filter}");
                        ("view", "views {schema_filter}");
                        ("procedure", "procedures {schema_filter}");
                        ("function", "functions {schema_filter}")];
     db_connect := fun _ => None;
     db_objects := fun _ template _ => Ok (objects template);
     default_provider := "anthropic";
     clients := ["anthropic"];
     anthropic_create := reply;
     ollama_generate := reply;
     json_loads := fun _ => Raise (JSONDecodeError "Expecting value");
     chroma_fault := fault;
     chroma_query := fun _ name docs _ _ => ranking name docs;
     eta_seconds := fun _ _ _ _ => 0 |}.

Definition no_fault : nat -> option exn := fun _ => None.

Definition no_ranking : string -> Collection -> QueryResult :=
  fun _ _ => {| ids := []; documents := []; metadatas := []; distances := [] |}.

(** The ranking that lists what a collection holds, all at distance 0. *)
Definition rank_stored : string -> Collection -> QueryResult :=
  fun _ docs =>
    let stored := map_to_list docs in
    {| ids := stored.*1;
       documents := (fun entry => content entry.2) <$> stored;
       metadatas := (fun entry => metadata entry.2) <$> stored;
       distances := (fun _ => 0%Q) <$> stored |}.

(** The source of a view that opens with a comment. *)
Definition commented_view : nat -> string -> string -> result (list (option string)) :=
  fun _ _ _ =>
    Ok [Some ("/* Open orders." +:+ nl +:+ nl
              +:+ "Analysis: none so far. */ CREATE VIEW v AS SELECT 1")].
Definition no_objects : string -> list (string * string * string) := fun _ => [].
(** Two tables and a view. *)
Definition two_tables_one_view (template : string)
  : list (string * string * string) :=
  if String.eqb template "tables {schema_filter}"
  then [("dbo", "a", "table"); ("dbo", "b", "table")]
  else if String.eqb template "views {schema_filter}"
  then [("dbo", "v", "view")]
  else [].

Definition no_definition : nat -> string -> string -> result (list (option string)) :=
  fun _ _ _ => Ok [].
Definition select_1 : nat -> string -> string -> result (list (option string)) :=
  fun _ _ _ => Ok [Some "SELECT 1"].
Definition provider_down : nat -> string -> result string :=
  fun _ _ => Raise (ExternalError "connection refused").
Definition provider_says (narrative : string) : nat -> string -> result string :=
  fun _ _ => Ok narrative.

(** A process that has made no call yet, and the same once [VectorStore]
    has been built against an index without collections. *)
Definition fresh_world : World :=
  {| clock := 0; chroma := ∅; collections := []; progress := initial_progress;
     trace := [] |}.

Definition ready_world : World :=
  (VectorStore_init
     (example_env no_definition no_objects provider_down no_fault no_ranking)
     fresh_world).2.

(** An index with one table, one view and one procedure documented and no
    function, and the ranking of section 8 of the specification: distances
    0.9 among the tables, 0.1 and 0.5 among the views, 0.3 among the
    procedures. *)
Definition stocked_world : World :=
  let rec := fun text => {| content := text; metadata := [] |} in
  set_chroma
    {[ "tables" := {[ "dbo.t" := rec "Table: dbo.t" ]};
       "views" := {[ "dbo.u" := rec "View: dbo.u"; "dbo.v" := rec "View: dbo.v" ]};
       "procedures" := {[ "dbo.p" := rec "Stored Procedure: dbo.p" ]};
       "functions" := ∅ ]}
    ready_world.

Definition stocked_ranking (name : string) (docs : Collection) : QueryResult :=
  if String.eqb name "tables" then
    {| ids := ["dbo.t"]; documents := ["Table: dbo.t"]; metadatas := [[]];
       distances := [(9 # 10)%Q] |}
  else if String.eqb name "views" then
    {| ids := ["dbo.v"; "dbo.u"]; documents := ["View: dbo.v"; "View: dbo.u"];
       metadatas := [[]; []]; distances := [(1 # 10)%Q; (5 # 10)%Q] |}
  else if String.eqb name "procedures" then
    {| ids := ["dbo.p"]; documents := ["Stored Procedure: dbo.p"];
       metadatas := [[]]; distances := [(3 # 10)%Q] |}
  else no_ranking name docs.

(** The environment [E] with another answer to the return type query. *)
Definition with_function_return_type
    (answer : nat -> string -> string -> result (list ReturnTypeRow))
    (E : Env) : Env :=
  {| db_table_columns := db_table_columns E;
     db_indexes := db_indexes E;
     db_foreign_keys := db_foreign_keys E;
     db_view_columns := db_view_columns E;
     db_procedure_params := db_procedure_params E;
     db_function_params := db_function_params E;
     db_function_return_type := answer;
     db_object_definition := db_object_definition E;
     OBJECT_QUERIES := OBJECT_QUERIES E;
     db_connect := db_connect E;
     db_objects := db_objects E;
     default_provider := default_provider E;
     clients := clients E;
     anthropic_create := anthropic_create E;
     ollama_generate := ollama_generate E;
     json_loads := json_loads E;
     chroma_fault := chroma_fault E;
     chroma_query := chroma_query E;
     eta_seconds := eta_seconds E |}.

(** The environment [E] with the provider settings of a client that was
    built. *)
Definition with_llm_client (llm : LLMClient) (E : Env) : Env :=
  {| db_table_columns := db_table_columns E;
     db_indexes := db_indexes E;
     db_foreign_keys := db_foreign_keys E;
     db_view_columns := db_view_columns E;
     db_procedure_params := db_procedure_params E;
     db_function_params := db_function_params E;
     db_function_return_type := db_function_return_type E;
     db_object_definition := db_object_definition E;
     OBJECT_QUERIES := OBJECT_QUERIES E;
     db_connect := db_connect E;
     db_objects := db_objects E;
     default_provider := self_default_provider llm;
     clients := self_clients llm;
     anthropic_create := anthropic_create E;
     ollama_generate := ollama_generate E;
     json_loads := json_loads E;
     chroma_fault := chroma_fault E;
     chroma_query := chroma_query E;
     eta_seconds := eta_seconds E |}.

(** A configuration file that sets up Ollama only. *)
Definition ollama_only (default_provider : option string) : Startup :=
  {| llm_config_json :=
       Ok {| cfg_default_provider := default_provider;
             cfg_providers := Some [("ollama", {| api_key := None |})] |};
     ANTHROPIC_API_KEY := None;
     new_Anthropic := fun _ => None;
     new_OllamaClient := fun _ => None |}.

(** Connection tests that all answer. *)
Definition probes_ok : Probes :=
  {| db_version := fun _ => Ok "Microsoft SQL Server 2019";
     anthropic_hello := fun _ => Ok ("claude-3-opus-20240229", "Hello!");
     ollama_test_connection := fun _ => Ok (JObject [("status", JString "ok")]) |}.

(** The environment [E] with another answer to the query for the columns
    of a view. *)
Definition with_view_columns
    (answer : nat -> string -> string -> result (list ColumnRow))
    (E : Env) : Env :=
  {| db_table_columns := db_table_columns E;
     db_indexes := db_indexes E;
     db_foreign_keys := db_foreign_keys E;
     db_view_columns := answer;
     db_procedure_params := db_procedure_params E;
     db_function_params := db_function_params E;
     db_function_return_type := db_function_return_type E;
     db_object_definition := db_object_definition E;
     OBJECT_QUERIES := OBJECT_QUERIES E;
     db_connect := db_connect E;
     db_objects := db_objects E;
     default_provider := default_provider E;
     clients := clients E;
     anthropic_create := anthropic_create E;
     ollama_generate := ollama_generate E;
     json_loads := json_loads E;
     chroma_fault := chroma_fault E;
     chroma_query := chroma_query E;
     eta_seconds := eta_seconds E |}.

(** ** Vocabulary of the properties *)

(** [occurs_at sub s i]: [sub] occurs in [s] at index [i]. *)
Definition occurs_at (sub s : string) (i : nat) : Prop :=
  exists pre post, s = pre +:+ sub +:+ post /\ String.length pre = i.

(** [contains sub s]: [sub] occurs somewhere in [s]. *)
Definition contains (sub s : string) : Prop := exists i, occurs_at sub s i.

(** The text [get_documentation_summary] looks for. *)
Definition analysis_heading : string := nl +:+ nl +:+ "Analysis:".

(** Ascending order of distances. *)
Definition nearer (a b : Hit) : Prop := (distance a <= distance b)%Q.

(** [collected E query n items w hits w']: running the body of the search
    loop on each collection of [items] in turn, from [w], succeeds, leaves
    the world [w'] and yields [hits], the results of the collections in
    order. *)
Inductive collected (E : Env) (query : string) (n_results : Z)
  : list (string * string) -> World -> list Hit -> World -> Prop :=
| collected_nil w : collected E query n_results [] w [] w
| collected_cons obj_type collection rest w hits w1 more w' :
    search_collection E query n_results collection w = (Ok hits, w1) ->
    collected E query n_results rest w1 more w' ->
    collected E query n_results ((obj_type, collection) :: rest) w
      (hits ++ more)%list w'.

(** [keeps R c]: whatever its outcome, [c] leaves a world related by [R] to
    the one it started from. *)
Definition keeps {A} (R : World -> World -> Prop) (c : M A) : Prop :=
  forall w, R w (c w).2.

(** [w'] differs from [w] at most in its clock. *)
Definition only_clock (w w' : World) : Prop :=
  chroma w' = chroma w /\ collections w' = collections w
  /\ progress w' = progress w /\ trace w' = trace w.

(** [w'] differs from [w] at most in its clock and in what the index holds. *)
Definition only_index (w w' : World) : Prop :=
  collections w' = collections w
  /\ progress w' = progress w /\ trace w' = trace w.

(** The call [llm_client.analyze_<type>(doc)] a documenter makes. *)
Definition analyze (E : Env) (cls : Documenter) (doc : string) : M string :=
  match cls with
  | TableDocumenter => analyze_table E doc None
  | ViewDocumenter => analyze_view E doc None
  | ProcedureDocumenter => analyze_procedure E doc None
  | FunctionDocumenter => analyze_function E doc None
  end.

(** The record [add_documentation] stores for a document and the metadata
    of its documenter. *)
Definition stored_record (schema name obj_type text : string)
    (meta : Metadata) : DocRecord :=
  {| content := text;
     metadata := ([("schema", MStr schema); ("name", MStr name);
                   ("type", MStr obj_type)] ++ meta)%list |}.

(** Between [w] and [w'] the index changed by one record, written under
    the id ["schema.name"] in the collection of [obj_type]. *)
Definition wrote_one_record (obj_type schema name : string) (w w' : World)
  : Prop :=
  exists handle docs rec,
    dict_get obj_type (collections w) = Some handle
    /\ chroma w !! handle = Some docs
    /\ chroma w' = <[handle := <[schema +:+ "." +:+ name := rec]> docs]> (chroma w).

(** The metadata queries a documenter runs before it asks for the
    definition answer whenever they are run. *)
Definition metadata_available (E : Env) (cls : Documenter)
    (schema name : string) : Prop :=
  match cls with
  | TableDocumenter => True
  | ViewDocumenter =>
      forall t, exists rows, db_view_columns E t schema name = Ok rows
  | ProcedureDocumenter =>
      forall t, exists rows, db_procedure_params E t schema name = Ok rows
  | FunctionDocumenter =>
      (forall t, exists rows, db_function_params E t schema name = Ok rows)
      /\ (forall t, exists row rows,
             db_function_return_type E t schema name = Ok (row :: rows))
  end.

(** The error of a documenter that finds no definition. *)
Definition definition_not_found (cls : Documenter) (schema name : string)
  : exn :=
  ValueError ("Could not retrieve definition for " +:+ tag cls +:+ " "
              +:+ schema +:+ "." +:+ name).

(** The definition [_get_definition] reads off an answer of the query:
    the first column of the first row, if the query answered with a row. *)
Definition first_definition (answer : result (list (option string)))
  : option string :=
  match answer with
  | Ok (first :: _) => first
  | _ => None
  end.

(** One pass of the recovery loop of [clear]. *)
Definition recreate (E : Env) (obj_type : string) : M unit :=
  handle <- get_or_create_collection E (obj_type +:+ "s") ;;
  set_collection obj_type handle.

(** Every partition has a collection of the index behind its handle. *)
Definition partitions_present (w : World) : Prop :=
  forall obj_type,
    obj_type ∈ ["table"; "view"; "procedure"; "function"] ->
    exists docs,
      dict_get obj_type (collections w) = Some (obj_type +:+ "s")
      /\ chroma w !! (obj_type +:+ "s") = Some docs.







(** The world in which [document_batch] discovers its objects: progress has
    been reset, the start time set and the phase moved to Initializing. *)
Definition initializing (w : World) : World :=
  let p0 := initial_progress in
  let p1 := with_start_time (Some (clock w)) p0 in
  let p2 := with_phase Initializing p1 in
  set_progress p2 (set_progress p1 (set_progress p0 w)).


(** The first three observations of a batch, newest first: the reset, the
    start time and the phase Initializing. *)
Definition opening (w : World) : list Event :=
  let p0 := initial_progress in
  let p1 := with_start_time (Some (clock w)) p0 in
  let p2 := with_phase Initializing p1 in
  [EvProgress p2; EvProgress p1; EvProgress p0].

(** The partition [key] holds [n] documents: its handle names a collection
    of the index with [n] records. *)
Definition partition_size (w : World) (key : string) (n : Z) : Prop :=
  exists handle docs,
    dict_get key (collections w) = Some handle
    /\ chroma w !! handle = Some docs
    /\ n = Z.of_nat (size docs).

(** The answer, at time [t], of the metadata query a documenter runs
    first, with its rows forgotten. *)
Definition first_metadata_query (E : Env) (cls : Documenter)
    (schema name : string) (t : nat) : result unit :=
  let forget {A} (r : result A) : result unit :=
    match r with
    | Ok _ => Ok tt
    | Raise e => Raise e
    end in
  match cls with
  | TableDocumenter => forget (db_table_columns E t schema name)
  | ViewDocumenter => forget (db_view_columns E t schema name)
  | ProcedureDocumenter => forget (db_procedure_params E t schema name)
  | FunctionDocumenter => forget (db_function_params E t schema name)
  end.

(** [c] makes at most [k] external calls. *)
Definition calls_at_most {A} (k : nat) (c : M A) : Prop :=
  forall w, (clock w <= clock (c w).2 <= clock w + k)%nat.

(** The external calls a documenter can make: its metadata queries and the
    definition query, one request to the provider and one upsert. *)
Definition call_budget (cls : Documenter) : nat :=
  match cls with
  | TableDocumenter => 5
  | ViewDocumenter => 4
  | ProcedureDocumenter => 4
  | FunctionDocumenter => 5
  end.


(** The objects whose [document] returned, among [events], oldest first. *)
Fixpoint documented (events : list Event) : list DbObject :=
  match events with
  | [] => []
  | EvDocumented o :: earlier => (documented earlier ++ [o])%list
  | EvProgress _ :: earlier => documented earlier
  end.

(** Between [w] and [w'] the objects [objs] were documented, in this order,
    and no other. *)
Definition documenting (objs : list DbObject) (w w' : World) : Prop :=
  exists new, trace w' = (new ++ trace w)%list /\ documented new = objs.

(** The requested type [obj_type] is a key of [OBJECT_QUERIES]. *)
Definition has_query (E : Env) (obj_type : string) : bool :=
  match dict_get obj_type (OBJECT_QUERIES E) with
  | Some _ => true
  | None => false
  end.

(** Opening the connection of [_get_database_objects] and nothing more. *)
Definition connect_only (E : Env) : M (list DbObject) :=
  fun w =>
    match db_connect E (clock w) with
    | Some e => (Raise e, tick w)
    | None => (Ok [], tick w)
    end.

(** [clear_documentation] and the like: the progress dict and the
    observations are those of [w]. *)
Definition same_progress (w w' : World) : Prop :=
  progress w' = progress w /\ trace w' = trace w.

(** The answer of the configured provider [p] to a prompt, at time [t]. *)
Definition provider_answer (E : Env) (p : string) (t : nat) (prompt : string)
  : result string :=
  if String.eqb p "anthropic" then anthropic_create E t prompt
  else ollama_generate E t prompt.

(** The database answers the two calls [test_connection] makes from time
    [t]: the connection and the version query. *)
Definition database_answers (E : Env) (P : Probes) (t : nat) : bool :=
  match db_connect E t, db_version P (S t) with
  | None, Ok _ => true
  | _, _ => false
  end.

(* ================================================================== *)
(** * Properties *)

Example format_varchar :
  _format_type_info {| data_type := "varchar"; max_length := 50;
                       precision := None; scale := None |} = "varchar(50)".
Proof. reflexivity. Qed.

Example format_decimal :
  _format_type_info {| data_type := "decimal"; max_length := -1;
                       precision := Some 10; scale := Some 2 |} = "decimal(10,2)".
Proof. reflexivity. Qed.

(** ** Strings *)

#[local] Arguments String.append !s1 s2 : simpl nomatch.

Lemma append_assoc (a b c : string) : (a +:+ b) +:+ c = a +:+ b +:+ c.
Proof. induction a as [|ch a IH]; simpl; [reflexivity | now rewrite IH]. Qed.


Lemma length_append (a b : string) :
  String.length (a +:+ b) = (String.length a + String.length b)%nat.
Proof. induction a as [|ch a IH]; simpl; [reflexivity | now rewrite IH]. Qed.

Lemma prefix_spec (sub s : string) :
  String.prefix sub s = true <-> exists rest, s = sub +:+ rest.
Proof.
  revert s. induction sub as [|c sub IH]; intros s; simpl.
  - split; [intros _; now exists s | intros _; now destruct s].
  - destruct s as [|d s].
    + split; [discriminate | intros [rest Hrest]; discriminate].
    + simpl. destruct (Ascii.ascii_dec c d) as [->|Hne].
      * rewrite IH. split; intros [rest Hrest]; exists rest.
        -- now rewrite Hrest.
        -- now injection Hrest.
      * split; [discriminate | intros [rest Hrest]].
        injection Hrest. intros _ Hcd. now elim Hne.
Qed.

Lemma substring_prefix (pre rest : string) :
  String.substring 0 (String.length pre) (pre +:+ rest) = pre.
Proof.
  induction pre as [|c pre IH]; simpl.
  - now destruct rest.
  - now rewrite IH.
Qed.

Lemma occurs_at_0 (sub s : string) :
  occurs_at sub s 0 <-> String.prefix sub s = true.
Proof.
  rewrite prefix_spec. split.
  - intros (pre & post & Hs & Hlen). destruct pre; [|discriminate].
    now exists post.
  - intros [rest Hrest]. now exists "", rest.
Qed.

Lemma occurs_at_S (sub : string) (c : Ascii.ascii) (s : string) (i : nat) :
  occurs_at sub (String c s) (S i) <-> occurs_at sub s i.
Proof.
  split.
  - intros (pre & post & Hs & Hlen). destruct pre as [|d pre]; [discriminate|].
    simpl in Hs, Hlen. exists pre, post. split; [now injection Hs | lia].
  - intros (pre & post & Hs & Hlen). exists (String c pre), post.
    simpl. split; [now rewrite Hs | lia].
Qed.

Lemma occurs_at_empty (sub : string) (i : nat) :
  occurs_at sub "" i -> i = 0%nat.
Proof.
  intros (pre & post & Hs & Hlen). destruct pre; [now simpl in Hlen | discriminate].
Qed.

(** [find_index] returns the first index at which [sub] occurs. *)
Lemma find_index_Some (sub s : string) (i : nat) :
  find_index sub s = Some i <->
  occurs_at sub s i /\ forall j, occurs_at sub s j -> (i <= j)%nat.
Proof.
  revert i. induction s as [|c s IH]; intros i.
  - cbn [find_index]. destruct (String.prefix sub "") eqn:Hp.
    + split.
      * intros [= <-]. split; [now apply occurs_at_0 | intros; lia].
      * intros [Hocc _]. apply occurs_at_empty in Hocc. now subst.
    + split; [discriminate | intros [Hocc _]].
      pose proof (occurs_at_empty _ _ Hocc) as ->.
      apply occurs_at_0 in Hocc. congruence.
  - cbn [find_index]. destruct (String.prefix sub (String c s)) eqn:Hp.
    + split.
      * intros [= <-]. split; [now apply occurs_at_0 | intros; lia].
      * intros [_ Hmin]. apply occurs_at_0 in Hp. apply Hmin in Hp.
        f_equal. lia.
    + destruct (find_index sub s) as [k|] eqn:Hk; simpl.
      * destruct (IH k) as [IH1 _]. destruct (IH1 eq_refl) as [Hocc Hmin].
        split.
        -- intros [= <-]. split; [now apply occurs_at_S |].
           intros [|j] Hj.
           ++ apply occurs_at_0 in Hj. congruence.
           ++ apply occurs_at_S in Hj. apply Hmin in Hj. lia.
        -- intros [Hi Himin]. destruct i as [|i].
           ++ apply occurs_at_0 in Hi. congruence.
           ++ apply occurs_at_S in Hi. f_equal. apply Hmin in Hi.
              assert (S i <= S k)%nat by (apply Himin; now apply occurs_at_S).
              lia.
      * split; [discriminate | intros [Hi _]]. destruct i as [|i].
        -- apply occurs_at_0 in Hi. congruence.
        -- apply occurs_at_S in Hi.
           assert (Hsome : find_index sub s <> None).
           { clear Hk IH Hp. revert i Hi. induction s as [|d s IHs]; intros i Hi.
             - pose proof (occurs_at_empty _ _ Hi) as ->.
               apply occurs_at_0 in Hi. cbn [find_index]. now rewrite Hi.
             - cbn [find_index]. destruct (String.prefix sub (String d s)) eqn:Hq;
                 [discriminate|]. destruct i as [|i].
               + apply occurs_at_0 in Hi. congruence.
               + apply occurs_at_S in Hi. apply IHs in Hi.
                 destruct (find_index sub s); [discriminate | congruence]. }
           congruence.
Qed.

Lemma find_index_None (sub s : string) :
  find_index sub s = None <-> forall i, ~ occurs_at sub s i.
Proof.
  split.
  - intros Hnone i Hocc. revert i Hocc.
    induction s as [|c s IH]; intros i Hocc.
    + pose proof (occurs_at_empty _ _ Hocc) as ->.
      apply occurs_at_0 in Hocc. cbn [find_index] in Hnone.
      now rewrite Hocc in Hnone.
    + cbn [find_index] in Hnone.
      destruct (String.prefix sub (String c s)) eqn:Hp; [discriminate|].
      destruct i as [|i].
      * apply occurs_at_0 in Hocc. congruence.
      * apply occurs_at_S in Hocc.
        destruct (find_index sub s) eqn:Hk; [discriminate|].
        now apply (IH eq_refl i).
  - intros Hno. destruct (find_index sub s) as [i|] eqn:Hi; [|reflexivity].
    apply find_index_Some in Hi. destruct Hi as [Hocc _]. now elim (Hno i).
Qed.

(** [s[:i]] for an index inside the string is its prefix of that length. *)
Lemma str_slice_prefix (pre rest : string) :
  str_slice (pre +:+ rest) 0 (Z.of_nat (String.length pre)) = pre.
Proof.
  unfold str_slice, slice_index. rewrite length_append.
  destruct (Z.ltb_spec 0 0); [lia|].
  destruct (Z.ltb_spec (Z.of_nat (String.length pre)) 0); [lia|].
  rewrite Z.min_l, Z.min_l by lia.
  rewrite Z.sub_0_r, Nat2Z.id. apply substring_prefix.
Qed.

(** ** The type formatter *)

Section TypeFormatter.

Variable ti : TypeInfo.

Lemma format_with_length :
  max_length ti <> -1 ->
  _format_type_info ti
  = data_type ti +:+ "(" +:+ str_of_int (max_length ti) +:+ ")".
Proof.
  intros Hlen. unfold _format_type_info.
  destruct (Z.eqb_spec (max_length ti) (-1)); [contradiction | reflexivity].
Qed.

Lemma format_precision_only (p : Z) :
  max_length ti = -1 -> precision ti = Some p -> p <> 0 ->
  truthy_int (scale ti) = false ->
  _format_type_info ti = data_type ti +:+ "(" +:+ str_of_int p +:+ ")".
Proof.
  intros Hlen Hp Hnz Hs. unfold _format_type_info.
  rewrite Hlen, Hp, Hs. simpl.
  destruct (Z.eqb_spec p 0); [contradiction | simpl].
  now rewrite !append_assoc.
Qed.

Lemma format_precision_scale (p sc : Z) :
  max_length ti = -1 -> precision ti = Some p -> p <> 0 ->
  scale ti = Some sc -> sc <> 0 ->
  _format_type_info ti
  = data_type ti +:+ "(" +:+ str_of_int p +:+ "," +:+ str_of_int sc +:+ ")".
Proof.
  intros Hlen Hp Hnz Hs Hsnz. unfold _format_type_info.
  rewrite Hlen, Hp, Hs. simpl.
  destruct (Z.eqb_spec p 0); [contradiction |].
  destruct (Z.eqb_spec sc 0); [contradiction | simpl].
  now rewrite !append_assoc.
Qed.

Lemma format_bare :
  max_length ti = -1 -> truthy_int (precision ti) = false ->
  _format_type_info ti = data_type ti.
Proof.
  intros Hlen Hp. unfold _format_type_info. rewrite Hlen, Hp. reflexivity.
Qed.

End TypeFormatter.

(** C8, as amended.  [_format_type_info] is a total function to strings: a
    [max_length] other than -1 gives ["{data_type}({max_length})"]; with
    [max_length = -1], a precision that is set and not zero gives
    ["{data_type}({precision},{scale})"] when the scale is set and not zero
    and ["{data_type}({precision})"] when the scale is unset or zero; a
    precision that is unset or zero gives the bare [data_type]. *)
Theorem format_type_info_cases (ti : TypeInfo) :
  (max_length ti <> -1 ->
   _format_type_info ti
   = data_type ti +:+ "(" +:+ str_of_int (max_length ti) +:+ ")")
  /\ (forall p, max_length ti = -1 -> precision ti = Some p -> p <> 0 ->
      scale ti = None \/ scale ti = Some 0 ->
      _format_type_info ti = data_type ti +:+ "(" +:+ str_of_int p +:+ ")")
  /\ (forall p sc, max_length ti = -1 -> precision ti = Some p -> p <> 0 ->
      scale ti = Some sc -> sc <> 0 ->
      _format_type_info ti
      = data_type ti +:+ "(" +:+ str_of_int p +:+ "," +:+ str_of_int sc +:+ ")")
  /\ (max_length ti = -1 -> precision ti = None \/ precision ti = Some 0 ->
      _format_type_info ti = data_type ti).
Proof.
  split; [|split; [|split]].
  - apply format_with_length.
  - intros p Hlen Hp Hnz Hs. apply format_precision_only; try assumption.
    now destruct Hs as [-> | ->].
  - intros p sc. apply format_precision_scale.
  - intros Hlen Hp. apply format_bare; [assumption|].
    now destruct Hp as [-> | ->].
Qed.

Lemma format_type_info_cases_witness :
  let varchar50 := {| data_type := "varchar"; max_length := 50;
                      precision := None; scale := None |} in
  let decimal10 := {| data_type := "decimal"; max_length := -1;
                      precision := Some 10; scale := Some 0 |} in
  let decimal10_2 := {| data_type := "decimal"; max_length := -1;
                        precision := Some 10; scale := Some 2 |} in
  let text := {| data_type := "text"; max_length := -1;
                 precision := Some 0; scale := None |} in
  _format_type_info varchar50 = "varchar(50)"
  /\ _format_type_info decimal10 = "decimal(10)"
  /\ _format_type_info decimal10_2 = "decimal(10,2)"
  /\ _format_type_info text = "text".
Proof.
  intros varchar50 decimal10 decimal10_2 text. split; [|split; [|split]].
  - apply (proj1 (format_type_info_cases varchar50)). discriminate.
  - apply (proj1 (proj2 (format_type_info_cases decimal10)) 10);
      [reflexivity | reflexivity | discriminate | right; reflexivity].
  - apply (proj1 (proj2 (proj2 (format_type_info_cases decimal10_2))) 10 2);
      [reflexivity | reflexivity | discriminate | reflexivity | discriminate].
  - apply (proj2 (proj2 (proj2 (format_type_info_cases text))));
      [reflexivity | right; reflexivity].
Defined.

(** C8 as stated fails on a scale that is present and zero: the claim
    expects ["decimal(10,0)"], the formatter leaves the scale out. *)
Lemma format_type_info_zero_scale :
  let ti := {| data_type := "decimal"; max_length := -1;
               precision := Some 10; scale := Some 0 |} in
  max_length ti = -1 /\ precision ti = Some 10 /\ scale ti = Some 0
  /\ _format_type_info ti = "decimal(10)"
  /\ _format_type_info ti
     <> data_type ti +:+ "(" +:+ str_of_int 10 +:+ "," +:+ str_of_int 0 +:+ ")".
Proof. cbv zeta. do 4 (split; [reflexivity|]). discriminate. Qed.

(** ** Running the monad *)

Ltac run :=
  unfold try_except, bind, ret, raise, lift, get, modify, external in *.

(** A handler that raises what it caught leaves the block as it is. *)
Lemma try_reraise {A} (body : M A) (w : World) :
  try_except body raise w = body w.
Proof. unfold try_except, raise. now destruct (body w) as [[a|e] w1]. Qed.

(** ** Search *)

Lemma list_slice_take {A} (l : list A) (n : Z) :
  0 <= n -> list_slice l 0 n = take (Z.to_nat n) l.
Proof.
  intros Hn. unfold list_slice, slice_index.
  destruct (Z.ltb_spec 0 0); [lia|].
  destruct (Z.ltb_spec n 0); [lia|].
  replace (Z.min 0 (Z.of_nat (length l))) with 0 by lia.
  simpl (Z.to_nat 0). rewrite drop_0, Z.sub_0_r.
  destruct (Z.le_gt_cases n (Z.of_nat (length l))).
  - now rewrite Z.min_l by lia.
  - rewrite Z.min_r by lia. rewrite Nat2Z.id.
    rewrite !take_ge; [reflexivity | lia | lia].
Qed.

Lemma nearer_total (a b : Hit) : Qle_bool (distance a) (distance b) = false -> nearer b a.
Proof.
  intros Hle. unfold nearer. apply Qlt_le_weak, Qnot_le_lt.
  intros H. apply Qle_bool_iff in H. congruence.
Qed.

#[local] Instance nearer_trans : Transitive nearer.
Proof. intros a b c. unfold nearer. apply Qle_trans. Qed.

Lemma insert_by_distance_perm (h : Hit) (l : list Hit) :
  insert_by_distance h l ≡ₚ h :: l.
Proof.
  induction l as [|x l IH]; simpl; [reflexivity|].
  destruct (Qle_bool (distance h) (distance x)); [reflexivity|].
  rewrite IH. apply Permutation_swap.
Qed.

Lemma insert_by_distance_sorted (h : Hit) (l : list Hit) :
  StronglySorted nearer l -> StronglySorted nearer (insert_by_distance h l).
Proof.
  induction l as [|x l IH]; simpl; intros Hs.
  - repeat constructor.
  - apply StronglySorted_cons in Hs as [Hx Hl].
    destruct (Qle_bool (distance h) (distance x)) eqn:Hle.
    + apply Qle_bool_iff in Hle. apply StronglySorted_cons. split.
      * constructor; [exact Hle|].
        eapply Forall_impl; [exact Hx|]. intros y Hy. now transitivity x.
      * now apply StronglySorted_cons.
    + apply StronglySorted_cons. split; [|now apply IH].
      rewrite insert_by_distance_perm. constructor; [|exact Hx].
      now apply nearer_total.
Qed.

Lemma sort_by_distance_perm (l : list Hit) : sort_by_distance l ≡ₚ l.
Proof.
  induction l as [|x l IH]; simpl; [reflexivity|].
  rewrite insert_by_distance_perm. now rewrite IH.
Qed.

Lemma sort_by_distance_sorted (l : list Hit) :
  StronglySorted nearer (sort_by_distance l).
Proof.
  induction l as [|x l IH]; simpl; [constructor|].
  now apply insert_by_distance_sorted.
Qed.

#[local] Instance Qeq_decision (x y : Q) : Decision (x == y)%Q := Qeq_dec x y.

(** The sort is stable: the hits at any one distance keep their order. *)
Lemma insert_by_distance_filter (d : Q) (h : Hit) (l : list Hit) :
  filter (fun x => Qeq (distance x) d) (insert_by_distance h l)
  = filter (fun x => Qeq (distance x) d) (h :: l).
Proof.
  induction l as [|x l IH]; simpl; [reflexivity|].
  destruct (Qle_bool (distance h) (distance x)) eqn:Hle; [reflexivity|].
  rewrite filter_cons, IH, !filter_cons.
  destruct (decide (distance x == d)) as [Hx|Hx];
    destruct (decide (distance h == d)) as [Hh|Hh]; try reflexivity.
  exfalso. assert (Qle_bool (distance h) (distance x) = true); [|congruence].
  apply Qle_bool_iff. rewrite Hx, Hh. apply Qle_refl.
Qed.

Lemma sort_by_distance_stable (d : Q) (l : list Hit) :
  filter (fun x => Qeq (distance x) d) (sort_by_distance l)
  = filter (fun x => Qeq (distance x) d) l.
Proof.
  induction l as [|x l IH]; simpl; [reflexivity|].
  rewrite insert_by_distance_filter, !filter_cons, IH. reflexivity.
Qed.

Lemma search_unfold (E : Env) (query : string) (n_results : Z) (w : World) :
  search E query n_results w
  = match search_collections E query n_results (collections w) [] w with
    | (Ok candidates, w') =>
        (Ok (list_slice (sort_by_distance candidates) 0 n_results), w')
    | (Raise e, w') => (Raise e, w')
    end.
Proof.
  unfold search. rewrite try_reraise. run.
  now destruct (search_collections _ _ _ _ _ _) as [[c|e] w'].
Qed.

Lemma search_collections_collected (E : Env) (query : string) (n : Z)
    (items : list (string * string)) (acc : list Hit) (w w' : World)
    (candidates : list Hit) :
  search_collections E query n items acc w = (Ok candidates, w') <->
  exists hits, candidates = (acc ++ hits)%list
               /\ collected E query n items w hits w'.
Proof.
  revert acc w. induction items as [|[obj_type collection] rest IH];
    intros acc w; simpl.
  - run. split.
    + intros [= <- <-]. exists []. split; [now rewrite app_nil_r | constructor].
    + intros (hits & -> & Hc). inversion Hc; subst. now rewrite app_nil_r.
  - unfold bind at 1.
    destruct (search_collection E query n collection w) as [[hits|e] w1] eqn:Hs.
    + rewrite IH. split.
      * intros (more & -> & Hc). exists (hits ++ more)%list.
        split; [now rewrite app_assoc | econstructor; eassumption].
      * intros (all & -> & Hc).
        inversion Hc as [|? ? ? ? hits' w1' more ? Hs' Hrest]; subst.
        rewrite Hs in Hs'. injection Hs' as <- <-.
        exists more. split; [now rewrite app_assoc | exact Hrest].
    + split; [discriminate|]. intros (all & _ & Hc).
      inversion Hc as [|? ? ? ? hits' w1' more ? Hs' Hrest]; subst.
      rewrite Hs in Hs'. discriminate.
Qed.

Lemma search_collection_empty (E : Env) (query : string) (n : Z)
    (collection : string) (docs : Collection) (w : World) :
  chroma_fault E (clock w) = None ->
  chroma w !! collection = Some docs ->
  size docs = 0%nat ->
  search_collection E query n collection w = (Ok [], tick w).
Proof.
  intros Hfault Hdocs Hsize.
  unfold search_collection, collection_count, chroma_call. run.
  rewrite Hfault. simpl. rewrite Hdocs, Hsize. reflexivity.
Qed.

Lemma search_collection_nonempty (E : Env) (query : string) (n : Z)
    (collection : string) (docs : Collection) (w : World) :
  chroma_fault E (clock w) = None ->
  chroma_fault E (S (clock w)) = None ->
  chroma w !! collection = Some docs ->
  size docs <> 0%nat ->
  let answer := chroma_query E (S (clock w)) collection docs query n in
  search_collection E query n collection w
  = (format_results answer (seq 0 (length (ids answer))), tick (tick w)).
Proof.
  intros Hfault Hfault' Hdocs Hsize answer.
  unfold search_collection, collection_count, collection_query, chroma_call.
  run. rewrite Hfault. simpl. rewrite Hdocs.
  destruct (Z.ltb_spec 0 (Z.of_nat (size docs))) as [_|Hle]; [|lia].
  simpl. rewrite Hfault'. simpl. rewrite Hdocs. reflexivity.
Qed.

Lemma sorted_take_drop (l : list Hit) (k : nat) (x y : Hit) :
  StronglySorted nearer l -> x ∈ take k l -> y ∈ drop k l -> nearer x y.
Proof.
  intros Hs Hx Hy. rewrite <- (take_drop k l) in Hs.
  eapply StronglySorted_app_1_elem_of; eassumption.
Qed.

(** C7.  [search] skips an empty collection without querying it and asks
    every other one for [n_results] candidates; the candidates
    of all collections are merged, and what is returned is at most
    [n_results] of them, in non-decreasing order of distance, none farther
    than a candidate left out. *)
Theorem search_returns_nearest (E : Env) (query : string) (n_results : Z) :
  (forall collection docs w,
      chroma_fault E (clock w) = None ->
      chroma w !! collection = Some docs ->
      size docs = 0%nat ->
      search_collection E query n_results collection w = (Ok [], tick w))
  /\ (forall collection docs w,
      chroma_fault E (clock w) = None ->
      chroma_fault E (S (clock w)) = None ->
      chroma w !! collection = Some docs ->
      size docs <> 0%nat ->
      let answer :=
        chroma_query E (S (clock w)) collection docs query n_results in
      search_collection E query n_results collection w
      = (format_results answer (seq 0 (length (ids answer))), tick (tick w)))
  /\ (forall w w' results,
      0 <= n_results ->
      search E query n_results w = (Ok results, w') ->
      exists candidates dropped,
        collected E query n_results (collections w) w candidates w'
        /\ candidates ≡ₚ (results ++ dropped)%list
        /\ Z.of_nat (length results) <= n_results
        /\ (dropped = [] \/ Z.of_nat (length results) = n_results)
        /\ StronglySorted nearer results
        /\ (forall x y, x ∈ results -> y ∈ dropped -> nearer x y)).
Proof.
  split; [intros; eapply search_collection_empty; eassumption|].
  split; [intros; now apply search_collection_nonempty|].
  intros w w' results Hn Hsearch. rewrite search_unfold in Hsearch.
  destruct (search_collections E query n_results (collections w) [] w)
    as [[candidates|e] w1] eqn:Hloop; [|discriminate].
  injection Hsearch as <- <-.
  apply search_collections_collected in Hloop as (hits & -> & Hcollected).
  simpl. rewrite list_slice_take by assumption.
  set (k := Z.to_nat n_results). set (sorted := sort_by_distance hits).
  exists hits, (drop k sorted). split; [exact Hcollected|].
  split; [now rewrite take_drop; symmetry; apply sort_by_distance_perm|].
  split; [rewrite length_take; lia|].
  split.
  - destruct (Nat.le_gt_cases (length sorted) k) as [Hle|Hgt].
    + left. now apply drop_ge.
    + right. rewrite length_take. lia.
  - split.
    + eapply StronglySorted_app_1_l. rewrite take_drop.
      apply sort_by_distance_sorted.
    + intros x y Hx Hy. eapply sorted_take_drop; [|exact Hx|exact Hy].
      apply sort_by_distance_sorted.
Qed.

Lemma search_returns_nearest_witness :
  let E := example_env no_definition no_objects provider_down no_fault
             stocked_ranking in
  let results :=
    [{| hit_id := "dbo.v"; hit_content := "View: dbo.v"; hit_metadata := [];
        distance := (1 # 10)%Q |};
     {| hit_id := "dbo.p"; hit_content := "Stored Procedure: dbo.p";
        hit_metadata := []; distance := (3 # 10)%Q |}] in
  let w' := (search E "orders" 2 stocked_world).2 in
  search E "orders" 2 stocked_world = (Ok results, w')
  /\ exists candidates dropped,
      collected E "orders" 2 (collections stocked_world) stocked_world
        candidates w'
      /\ candidates ≡ₚ (results ++ dropped)%list
      /\ Z.of_nat (length results) <= 2
      /\ (dropped = [] \/ Z.of_nat (length results) = 2)
      /\ StronglySorted nearer results
      /\ (forall x y, x ∈ results -> y ∈ dropped -> nearer x y).
Proof.
  intros E results w'.
  assert (Hrun : search E "orders" 2 stocked_world = (Ok results, w'))
    by (vm_compute; reflexivity).
  split; [exact Hrun|].
  apply (proj2 (proj2 (search_returns_nearest E "orders" 2))
           stocked_world w' results);
    [lia | exact Hrun].
Defined.

(** ** Summaries *)

Lemma str_find_first (sub pre post : string) :
  (forall j, occurs_at sub (pre +:+ sub +:+ post) j -> (String.length pre <= j)%nat) ->
  str_find sub (pre +:+ sub +:+ post) = Z.of_nat (String.length pre).
Proof.
  intros Hmin. unfold str_find.
  assert (H : find_index sub (pre +:+ sub +:+ post) = Some (String.length pre)).
  { apply find_index_Some. split; [now exists pre, post | exact Hmin]. }
  now rewrite H.
Qed.

Lemma str_find_absent (sub s : string) :
  ~ contains sub s -> str_find sub s = -1.
Proof.
  intros Hno. unfold str_find.
  assert (H : find_index sub s = None).
  { apply find_index_None. intros i Hi. apply Hno. now exists i. }
  now rewrite H.
Qed.

Lemma summary_unfold (E : Env) (schema name obj_type : string) (w : World) :
  get_documentation_summary E schema name obj_type w
  = match search E (schema +:+ "." +:+ name +:+ " " +:+ obj_type) 1 w with
    | (Ok (first :: _), w') =>
        let doc := hit_content first in
        let analysis_index := str_find analysis_heading doc in
        (Ok (if -1 <? analysis_index then str_slice doc 0 analysis_index
             else doc), w')
    | (Ok [], w') =>
        (Ok ("No documentation found for " +:+ obj_type +:+ " " +:+ schema
             +:+ "." +:+ name), w')
    | (Raise e, w') => (Ok ("Error generating summary: " +:+ str_exn e), w')
    end.
Proof.
  unfold get_documentation_summary. run.
  destruct (search E _ 1 w) as [[[|first rest]|e] w']; reflexivity.
Qed.

(** C6, as amended.  [get_documentation_summary] cuts the content of the
    best match at the first occurrence of the heading ["\n\nAnalysis:"]
    (the separator without its closing line feed), returning what precedes
    it; content without that heading is returned unchanged; and when the
    search finds no match the answer is the message ["No documentation
    found for {type} {schema}.{name}"]. *)
Theorem summary_cuts_at_analysis_heading (E : Env)
    (schema name obj_type : string) (w w' : World) :
  let query := schema +:+ "." +:+ name +:+ " " +:+ obj_type in
  (forall first rest pre post,
      search E query 1 w = (Ok (first :: rest), w') ->
      hit_content first = pre +:+ analysis_heading +:+ post ->
      (forall j, occurs_at analysis_heading (hit_content first) j ->
                 (String.length pre <= j)%nat) ->
      get_documentation_summary E schema name obj_type w = (Ok pre, w'))
  /\ (forall first rest,
      search E query 1 w = (Ok (first :: rest), w') ->
      ~ contains analysis_heading (hit_content first) ->
      get_documentation_summary E schema name obj_type w
      = (Ok (hit_content first), w'))
  /\ (search E query 1 w = (Ok [], w') ->
      get_documentation_summary E schema name obj_type w
      = (Ok ("No documentation found for " +:+ obj_type +:+ " " +:+ schema
             +:+ "." +:+ name), w')).
Proof.
  intros query. split; [|split].
  - intros first rest pre post Hsearch Hcontent Hfirst.
    rewrite summary_unfold. fold query. rewrite Hsearch. cbv zeta.
    rewrite Hcontent in Hfirst |- *. rewrite str_find_first by exact Hfirst.
    destruct (Z.ltb_spec (-1) (Z.of_nat (String.length pre))); [|lia].
    now rewrite str_slice_prefix.
  - intros first rest Hsearch Hno.
    rewrite summary_unfold. fold query. rewrite Hsearch. cbv zeta.
    now rewrite str_find_absent by exact Hno.
  - intros Hsearch. rewrite summary_unfold. fold query. now rewrite Hsearch.
Qed.

Lemma summary_cuts_at_analysis_heading_witness :
  let E := example_env select_1 no_objects (provider_says "Lists one row.")
             no_fault rank_stored in
  let w := (document E ViewDocumenter "dbo" "v" ready_world).2 in
  let w' := (search E "dbo.v view" 1 w).2 in
  let described := view_doc "dbo" "v"
                     [{| column_name := "id";
                         column_type := {| data_type := "int"; max_length := 4;
                                           precision := Some 10;
                                           scale := Some 0 |};
                         is_nullable := false; column_description := None |}]
                     (Some "SELECT 1") in
  get_documentation_summary E "dbo" "v" "view" w = (Ok described, w').
Proof.
  intros E w w' described.
  pose (first := {| hit_id := "dbo.v";
                    hit_content := described +:+ analysis_heading +:+ nl
                                   +:+ "Lists one row.";
                    hit_metadata :=
                      [("schema", MStr "dbo"); ("name", MStr "v");
                       ("type", MStr "view"); ("column_count", MInt 1);
                       ("definition_length", MInt 8)];
                    distance := 0%Q |}).
  apply (proj1 (summary_cuts_at_analysis_heading E "dbo" "v" "view" w w')
           first [] described (nl +:+ "Lists one row.")).
  - vm_compute. reflexivity.
  - reflexivity.
  - assert (Hfind : find_index analysis_heading (hit_content first)
                    = Some (String.length described))
      by (vm_compute; reflexivity).
    apply find_index_Some in Hfind. exact (proj2 Hfind).
Defined.

(** C6 as stated fails on content that holds the heading but not the whole
    separator ["\n\nAnalysis:\n"]: the claim returns such content unchanged,
    the summary is cut.  The content is what [ViewDocumenter] stores for a
    view whose source opens with a comment, the provider being down. *)
Lemma summary_cuts_content_without_separator :
  let E := example_env commented_view no_objects provider_down no_fault
             rank_stored in
  let w := (document E ViewDocumenter "dbo" "v" ready_world).2 in
  exists first,
    (search E "dbo.v view" 1 w).1 = Ok [first]
    /\ ~ contains analysis_separator (hit_content first)
    /\ (get_documentation_summary E "dbo" "v" "view" w).1
       <> Ok (hit_content first).
Proof.
  intros E w. eexists. split; [vm_compute; reflexivity|]. split.
  - intros [i Hi]. revert i Hi. apply find_index_None.
    vm_compute. reflexivity.
  - vm_compute. discriminate.
Qed.

(** ** What a computation leaves unchanged *)

#[local] Instance only_clock_refl : Reflexive only_clock.
Proof. intros w. now repeat split. Qed.

#[local] Instance only_clock_trans : Transitive only_clock.
Proof.
  intros a b c (H1 & H2 & H3 & H4) (K1 & K2 & K3 & K4).
  repeat split; congruence.
Qed.

#[local] Instance only_index_refl : Reflexive only_index.
Proof. intros w. now repeat split. Qed.

#[local] Instance only_index_trans : Transitive only_index.
Proof.
  intros a b c (H1 & H2 & H3) (K1 & K2 & K3). repeat split; congruence.
Qed.

Lemma only_clock_index (w w' : World) : only_clock w w' -> only_index w w'.
Proof. intros (_ & H2 & H3 & H4). now repeat split. Qed.

Section Keeps.

Context (R : World -> World -> Prop) `{!Reflexive R, !Transitive R}.

Lemma keeps_ret {A} (a : A) : keeps R (ret a).
Proof. intros w. simpl. reflexivity. Qed.

Lemma keeps_raise {A} (e : exn) : keeps R (@raise A e).
Proof. intros w. simpl. reflexivity. Qed.

Lemma keeps_lift {A} (r : result A) : keeps R (lift r).
Proof. intros w. simpl. reflexivity. Qed.

Lemma keeps_get {A} (f : World -> A) : keeps R (get f).
Proof. intros w. simpl. reflexivity. Qed.

Lemma keeps_bind {A B} (c : M A) (k : A -> M B) :
  keeps R c -> (forall a, keeps R (k a)) -> keeps R (x <- c ;; k x).
Proof.
  intros Hc Hk w. unfold bind. specialize (Hc w).
  destruct (c w) as [[a|e] w1]; simpl in *; [|exact Hc].
  etransitivity; [exact Hc | apply Hk].
Qed.

Lemma keeps_try_except {A} (body : M A) (handler : exn -> M A) :
  keeps R body -> (forall e, keeps R (handler e)) ->
  keeps R (try_except body handler).
Proof.
  intros Hb Hh w. unfold try_except. specialize (Hb w).
  destruct (body w) as [[a|e] w1]; simpl in *; [exact Hb|].
  etransitivity; [exact Hb | apply Hh].
Qed.

Lemma keeps_for_each {A} (xs : list A) (body : A -> M unit) :
  (forall x, keeps R (body x)) -> keeps R (for_each xs body).
Proof.
  intros Hb. induction xs as [|x xs IH]; simpl.
  - apply keeps_ret.
  - apply keeps_bind; [apply Hb | intros _; exact IH].
Qed.

End Keeps.

Lemma keeps_external {A} (answer : nat -> result A) :
  keeps only_clock (external answer).
Proof. intros w. now repeat split. Qed.

Lemma keeps_execute_query {A} (answer : nat -> result A) :
  keeps only_clock (_execute_query answer).
Proof.
  apply keeps_try_except; try typeclasses eauto.
  - apply keeps_external.
  - intros e. apply keeps_raise; typeclasses eauto.
Qed.

Lemma keeps_chroma_call {A} (E : Env) (op : Chroma -> result (A * Chroma)) :
  keeps only_index (chroma_call E op).
Proof.
  intros w. unfold chroma_call.
  destruct (chroma_fault E (clock w)); [now repeat split|].
  destruct (op (chroma (tick w))) as [[a c]|e]; now repeat split.
Qed.

Ltac frame :=
  repeat first
    [ apply keeps_execute_query
    | apply keeps_external
    | apply keeps_chroma_call
    | apply keeps_ret; [typeclasses eauto]
    | apply keeps_raise; [typeclasses eauto]
    | apply keeps_lift; [typeclasses eauto]
    | apply keeps_get; [typeclasses eauto]
    | apply keeps_bind; [typeclasses eauto | | intros ? ]
    | apply keeps_try_except; [typeclasses eauto | | intros ? ]
    | apply keeps_for_each; [typeclasses eauto | typeclasses eauto | intros ? ]
    | match goal with
      | |- keeps _ (match ?x with _ => _ end) => destruct x
      | |- keeps _ (if ?b then _ else _) => destruct b
      | |- keeps _ (let '(_, _) := ?x in _) => destruct x
      end ].

Lemma keeps_get_definition (E : Env) (schema name : string) :
  keeps only_clock (_get_definition E schema name).
Proof. unfold _get_definition. frame. Qed.

Lemma keeps_generate_response (E : Env) (prompt : string)
    (provider : option string) :
  keeps only_clock (generate_response E prompt provider).
Proof. unfold generate_response. frame. Qed.

Lemma keeps_analyze (E : Env) (cls : Documenter) (doc : string) :
  keeps only_clock (analyze E cls doc).
Proof.
  destruct cls; simpl;
    unfold analyze_table, analyze_view, analyze_procedure, analyze_function;
    apply keeps_generate_response.
Qed.

Lemma keeps_prepare (E : Env) (cls : Documenter) (schema name : string) :
  keeps only_clock (prepare E cls schema name).
Proof.
  destruct cls; simpl;
    unfold TableDocumenter_prepare, ViewDocumenter_prepare,
      ProcedureDocumenter_prepare, FunctionDocumenter_prepare;
    frame; try apply keeps_get_definition; frame.
Qed.

(** ** The documenters *)

Lemma document_unfold (E : Env) (cls : Documenter) (schema name : string)
    (w : World) :
  document E cls schema name w
  = match prepare E cls schema name w with
    | (Ok prepared, w1) => enrich_and_store E schema name (tag cls) prepared w1
    | (Raise e, w1) => (Raise e, w1)
    end.
Proof.
  destruct cls; simpl;
    unfold TableDocumenter_document, ViewDocumenter_document,
      ProcedureDocumenter_document, FunctionDocumenter_document;
    rewrite try_reraise; unfold bind;
    match goal with
    | |- context [match ?c with _ => _ end] => now destruct c as [[p|e] w1]
    end.
Qed.

Lemma get_llm_analysis_unfold (E : Env) (cls : Documenter) (doc : string)
    (w : World) :
  _get_llm_analysis E doc (tag cls) w
  = match analyze E cls doc w with
    | (Ok narrative, w') => (Ok (Some narrative), w')
    | (Raise _, w') => (Ok None, w')
    end.
Proof.
  destruct cls; unfold _get_llm_analysis; simpl; run;
    match goal with
    | |- context [match ?c with _ => _ end] => now destruct c as [[a|e] w1]
    end.
Qed.

Lemma enrich_and_store_unfold (E : Env) (cls : Documenter)
    (schema name doc : string) (meta : Metadata) (w : World) :
  enrich_and_store E schema name (tag cls) (doc, meta) w
  = match analyze E cls doc w with
    | (Ok narrative, w') =>
        add_documentation E schema name (tag cls)
          (if truthy_str (Some narrative)
           then doc +:+ analysis_separator +:+ narrative else doc) meta w'
    | (Raise _, w') => add_documentation E schema name (tag cls) doc meta w'
    end.
Proof.
  unfold enrich_and_store, _store_documentation. unfold bind at 1.
  rewrite get_llm_analysis_unfold.
  now destruct (analyze E cls doc w) as [[a|e] w1].
Qed.

Lemma add_documentation_unfold (E : Env) (schema name obj_type text : string)
    (meta : Metadata) (w : World) :
  add_documentation E schema name obj_type text meta w
  = match dict_get obj_type (collections w) with
    | None => (Raise (KeyError obj_type), w)
    | Some handle =>
        match chroma_fault E (clock w) with
        | Some e => (Raise e, tick w)
        | None =>
            match chroma w !! handle with
            | None => (no_collection handle, tick w)
            | Some docs =>
                (Ok tt,
                 set_chroma
                   (<[handle := <[schema +:+ "." +:+ name :=
                                    stored_record schema name obj_type text meta]>
                                  docs]> (chroma w))
                   (tick w))
            end
        end
    end.
Proof.
  unfold add_documentation. rewrite try_reraise.
  unfold bind, collection_of, collection_upsert, chroma_call.
  destruct (dict_get obj_type (collections w)) as [handle|]; [|reflexivity].
  destruct (chroma_fault E (clock w)); [reflexivity|]. simpl.
  now destruct (chroma w !! handle).
Qed.

Lemma add_documentation_outcome (E : Env) (schema name obj_type text : string)
    (meta : Metadata) (w w' : World) (r : result unit) :
  add_documentation E schema name obj_type text meta w = (r, w') ->
  only_index w w'
  /\ match r with
     | Ok _ => wrote_one_record obj_type schema name w w'
     | Raise _ => chroma w' = chroma w
     end.
Proof.
  rewrite add_documentation_unfold.
  destruct (dict_get obj_type (collections w)) as [handle|] eqn:Hh.
  - destruct (chroma_fault E (clock w)).
    + intros [= <- <-]. now repeat split.
    + destruct (chroma w !! handle) as [docs|] eqn:Hd.
      * intros [= <- <-]. split; [now repeat split|].
        exists handle, docs, (stored_record schema name obj_type text meta).
        now repeat split.
      * intros [= <- <-]. now repeat split.
  - intros [= <- <-]. now repeat split.
Qed.

(** What [document] does to the index: nothing, or one record written. *)
Lemma document_outcome (E : Env) (cls : Documenter) (schema name : string)
    (w w' : World) (r : result unit) :
  document E cls schema name w = (r, w') ->
  only_index w w'
  /\ match r with
     | Ok _ => wrote_one_record (tag cls) schema name w w'
     | Raise _ => chroma w' = chroma w
     end.
Proof.
  rewrite document_unfold.
  pose proof (keeps_prepare E cls schema name w) as Hprep.
  destruct (prepare E cls schema name w) as [[[doc meta]|e] w1]; simpl in Hprep.
  - rewrite enrich_and_store_unfold.
    pose proof (keeps_analyze E cls doc w1) as Han.
    assert (Hclock : only_clock w (analyze E cls doc w1).2)
      by (etransitivity; eassumption).
    destruct (analyze E cls doc w1) as [reply w2]; simpl in Hclock.
    destruct Hclock as (Hc & Hcol & Hp & Ht).
    assert (Hstore : forall text,
      add_documentation E schema name (tag cls) text meta w2 = (r, w') ->
      only_index w w'
      /\ match r with
         | Ok _ => wrote_one_record (tag cls) schema name w w'
         | Raise _ => chroma w' = chroma w
         end).
    { intros text Hadd. apply add_documentation_outcome in Hadd.
      destruct Hadd as [(K1 & K2 & K3) Hr]. split.
      - repeat split; congruence.
      - destruct r; [|congruence].
        destruct Hr as (handle & docs & rec & H1 & H2 & H3).
        exists handle, docs, rec. rewrite <- Hc, <- Hcol. now repeat split. }
    destruct reply as [narrative|e]; apply Hstore.
  - intros [= <- <-]. split; [now apply only_clock_index | apply Hprep].
Qed.

Lemma execute_query_unfold {A} (answer : nat -> result A) (w : World) :
  _execute_query answer w = (answer (clock w), tick w).
Proof. unfold _execute_query. now rewrite try_reraise. Qed.

Lemma get_definition_unfold (E : Env) (schema name : string) (w : World) :
  _get_definition E schema name w
  = (Ok (first_definition (db_object_definition E (clock w) schema name)),
     tick w).
Proof.
  unfold _get_definition, try_except, bind. rewrite execute_query_unfold.
  now destruct (db_object_definition E (clock w) schema name) as [[|first rest]|e].
Qed.

(** Without a definition the view, procedure and function documenters stop
    before the analysis; the error is the one of the missing definition
    unless an earlier metadata query failed. *)
Lemma prepare_definition_missing (E : Env) (cls : Documenter)
    (schema name : string) (w : World) :
  cls <> TableDocumenter ->
  (forall t, truthy_str (first_definition (db_object_definition E t schema name))
             = false) ->
  exists e w1,
    prepare E cls schema name w = (Raise e, w1)
    /\ (metadata_available E cls schema name ->
        e = definition_not_found cls schema name).
Proof.
  intros Hcls Hdef. destruct cls; [contradiction| | |]; simpl.
  - unfold ViewDocumenter_prepare, bind. rewrite execute_query_unfold.
    destruct (db_view_columns E (clock w) schema name) as [cols|e] eqn:Hcols.
    + rewrite get_definition_unfold, Hdef. simpl. eexists _, _. split; reflexivity.
    + exists e, (tick w). split; [reflexivity|]. intros Hmeta.
      destruct (Hmeta (clock w)) as [rows Hrows]. congruence.
  - unfold ProcedureDocumenter_prepare, bind. rewrite execute_query_unfold.
    destruct (db_procedure_params E (clock w) schema name) as [ps|e] eqn:Hps.
    + rewrite get_definition_unfold, Hdef. simpl. eexists _, _. split; reflexivity.
    + exists e, (tick w). split; [reflexivity|]. intros Hmeta.
      destruct (Hmeta (clock w)) as [rows Hrows]. congruence.
  - unfold FunctionDocumenter_prepare, bind. rewrite execute_query_unfold.
    destruct (db_function_params E (clock w) schema name) as [ps|e] eqn:Hps.
    + rewrite execute_query_unfold.
      destruct (db_function_return_type E (clock (tick w)) schema name)
        as [[|rt rts]|e] eqn:Hrt.
      * eexists _, _. split; [reflexivity|]. intros [_ Hmeta].
        destruct (Hmeta (clock (tick w))) as (row & rows & Hrows). congruence.
      * unfold bind. rewrite get_definition_unfold, Hdef. simpl.
        eexists _, _. split; reflexivity.
      * exists e, (tick (tick w)). split; [reflexivity|]. intros [_ Hmeta].
        destruct (Hmeta (clock (tick w))) as (row & rows & Hrows). congruence.
    + exists e, (tick w). split; [reflexivity|]. intros [Hmeta _].
      destruct (Hmeta (clock w)) as [rows Hrows]. congruence.
Qed.

(** The documenters depend on the answers of the definition query only
    through the definition read off them. *)
Lemma document_definition_indifferent (E : Env) (cls : Documenter)
    (schema name : string)
    (f g : nat -> string -> string -> result (list (option string)))
    (w : World) :
  (forall t, first_definition (f t schema name)
             = first_definition (g t schema name)) ->
  document (with_object_definition f E) cls schema name w
  = document (with_object_definition g E) cls schema name w.
Proof.
  intros Hfg. destruct cls; simpl.
  - reflexivity.
  - unfold ViewDocumenter_document. rewrite !try_reraise.
    unfold ViewDocumenter_prepare, bind. rewrite !execute_query_unfold. simpl.
    destruct (db_view_columns E (clock w) schema name); [|reflexivity].
    rewrite !get_definition_unfold. simpl. now rewrite Hfg.
  - unfold ProcedureDocumenter_document. rewrite !try_reraise.
    unfold ProcedureDocumenter_prepare, bind. rewrite !execute_query_unfold.
    simpl.
    destruct (db_procedure_params E (clock w) schema name); [|reflexivity].
    rewrite !get_definition_unfold. simpl. now rewrite Hfg.
  - unfold FunctionDocumenter_document. rewrite !try_reraise.
    unfold FunctionDocumenter_prepare, bind. rewrite !execute_query_unfold.
    simpl.
    destruct (db_function_params E (clock w) schema name); [|reflexivity].
    rewrite ?execute_query_unfold. simpl.
    destruct (db_function_return_type E (S (clock w)) schema name)
      as [[|rt rts]|e]; [reflexivity| |reflexivity].
    unfold bind. rewrite !get_definition_unfold. simpl. now rewrite Hfg.
Qed.

(** C2, as amended.  For every documenter, [document] writes exactly one
    record to the index when it succeeds and leaves the index as it was when
    it fails.  For the view, procedure and function documenters, a
    definition query that returns no row makes [document] fail without
    persisting a record, with the error "Could not retrieve definition"
    whenever the metadata queries that come first have answered.  The table
    documenter does not ask for the definition: what it does is the same
    whatever the definition query would answer. *)
Theorem document_writes_one_record_or_nothing (E : Env) (cls : Documenter)
    (schema name : string) (w w' : World) (r : result unit) :
  document E cls schema name w = (r, w') ->
  match r with
  | Ok _ => wrote_one_record (tag cls) schema name w w'
  | Raise _ => chroma w' = chroma w
  end
  /\ (cls <> TableDocumenter ->
      (forall t, db_object_definition E t schema name = Ok []) ->
      chroma w' = chroma w
      /\ exists e, r = Raise e
                   /\ (metadata_available E cls schema name ->
                       e = definition_not_found cls schema name))
  /\ (cls = TableDocumenter ->
      forall answer,
        document (with_object_definition answer E) cls schema name w = (r, w')).
Proof.
  intros Hrun. pose proof (document_outcome _ _ _ _ _ _ _ Hrun) as [_ Hout].
  split; [exact Hout|]. split.
  - intros Hcls Hdef.
    destruct (prepare_definition_missing E cls schema name w Hcls)
      as (e & w1 & Hprep & Hmeta).
    { intros t. now rewrite Hdef. }
    rewrite document_unfold, Hprep in Hrun. injection Hrun as <- <-.
    split; [exact Hout|]. now exists e.
  - intros -> answer. exact Hrun.
Qed.

Lemma document_writes_one_record_or_nothing_witness :
  let E := example_env no_definition no_objects provider_down no_fault
             no_ranking in
  let failed := document E ViewDocumenter "dbo" "v" ready_world in
  let stored := document E TableDocumenter "dbo" "t" ready_world in
  (chroma failed.2 = chroma ready_world
   /\ failed.1 = Raise (definition_not_found ViewDocumenter "dbo" "v"))
  /\ wrote_one_record "table" "dbo" "t" ready_world stored.2.
Proof.
  intros E failed stored. split.
  - destruct (document_writes_one_record_or_nothing E ViewDocumenter "dbo" "v"
                ready_world failed.2 failed.1 (surjective_pairing _))
      as (_ & Hdef & _).
    destruct Hdef as (Hsame & e & He & Hmeta);
      [discriminate | reflexivity |].
    split; [exact Hsame|]. rewrite He. f_equal. apply Hmeta.
    intros t. eexists. reflexivity.
  - assert (Hok : stored.1 = Ok tt) by (vm_compute; reflexivity).
    pose proof (document_writes_one_record_or_nothing E TableDocumenter
                  "dbo" "t" ready_world stored.2 stored.1
                  (surjective_pairing _)) as (Hout & _).
    rewrite Hok in Hout. exact Hout.
Defined.

(** C2 as stated fails for the table documenter: with a definition query
    that returns no row, [document] succeeds and persists the record. *)
Lemma table_documented_without_definition :
  let E := example_env no_definition no_objects provider_down no_fault
             no_ranking in
  let run := document E TableDocumenter "dbo" "t" ready_world in
  (forall t, db_object_definition E t "dbo" "t" = Ok [])
  /\ run.1 = Ok tt
  /\ chroma ready_world !! "tables" = Some ∅
  /\ exists rec, chroma run.2 !! "tables" = Some {[ "dbo.t" := rec ]}.
Proof.
  intros E run. split; [reflexivity|]. split; [vm_compute; reflexivity|].
  split; [vm_compute; reflexivity|].
  eexists. vm_compute. reflexivity.
Qed.

(** C10.  [_get_definition] turns a failure of the definition query into
    the absent value, the very result of a query that returns no row; so
    every documenter behaves alike in the two cases, and the documenters
    that ask for the definition (view, procedure, function) fail with
    "Could not retrieve definition" without storing anything, once the
    metadata queries that come first have answered. *)
Theorem definition_query_failure_looks_like_absence (E : Env)
    (schema name : string)
    (f g : nat -> string -> string -> result (list (option string))) :
  (forall t, exists e, f t schema name = Raise e) ->
  (forall t, g t schema name = Ok []) ->
  let failing := with_object_definition f E in
  let empty := with_object_definition g E in
  (forall w, _get_definition failing schema name w = (Ok None, tick w)
             /\ _get_definition empty schema name w = (Ok None, tick w))
  /\ (forall cls w, document failing cls schema name w
                    = document empty cls schema name w)
  /\ (forall cls w,
         cls <> TableDocumenter ->
         metadata_available E cls schema name ->
         exists w',
           document failing cls schema name w
           = (Raise (definition_not_found cls schema name), w')
           /\ chroma w' = chroma w).
Proof.
  intros Hf Hg failing empty.
  assert (Hnone_f : forall t, first_definition (f t schema name) = None).
  { intros t. destruct (Hf t) as [e ->]. reflexivity. }
  assert (Hnone_g : forall t, first_definition (g t schema name) = None).
  { intros t. now rewrite Hg. }
  split; [|split].
  - intros w. rewrite !get_definition_unfold. simpl.
    now rewrite Hnone_f, Hnone_g.
  - intros cls w. apply document_definition_indifferent.
    intros t. now rewrite Hnone_f, Hnone_g.
  - intros cls w Hcls Hmeta.
    destruct (prepare_definition_missing failing cls schema name w Hcls)
      as (e & w1 & Hprep & He).
    { intros t. simpl. now rewrite Hnone_f. }
    assert (Hmeta' : metadata_available failing cls schema name)
      by (destruct cls; exact Hmeta).
    rewrite (He Hmeta') in Hprep. exists w1.
    rewrite document_unfold, Hprep. split; [reflexivity|].
    pose proof (keeps_prepare failing cls schema name w) as Hk.
    rewrite Hprep in Hk. apply Hk.
Qed.

Lemma definition_query_failure_looks_like_absence_witness :
  let E := example_env select_1 no_objects provider_down no_fault no_ranking in
  let timeout := fun (_ : nat) (_ _ : string) =>
                   @Raise (list (option string)) (ExternalError "query timeout") in
  let failing := with_object_definition timeout E in
  let empty := with_object_definition no_definition E in
  document failing ViewDocumenter "dbo" "v" ready_world
  = document empty ViewDocumenter "dbo" "v" ready_world
  /\ exists w', document failing ViewDocumenter "dbo" "v" ready_world
                = (Raise (definition_not_found ViewDocumenter "dbo" "v"), w')
                /\ chroma w' = chroma ready_world.
Proof.
  intros E timeout failing empty.
  destruct (definition_query_failure_looks_like_absence E "dbo" "v"
              timeout no_definition) as (_ & Hsame & Hfail).
  - intros t. eexists. reflexivity.
  - reflexivity.
  - split; [apply Hsame|]. apply Hfail; [discriminate|].
    intros t. eexists. reflexivity.
Defined.

(** A provider that is not configured makes the enrichment call raise
    without leaving the process. *)
Lemma analyze_unavailable (E : Env) (cls : Documenter) (doc : string)
    (w : World) :
  configured E (default_provider E) = false ->
  exists e, analyze E cls doc w = (Raise e, w).
Proof.
  intros Hconf.
  assert (H : forall prompt,
             exists e, generate_response E prompt None w = (Raise e, w)).
  { intros prompt. unfold generate_response. rewrite try_reraise. simpl.
    destruct (String.eqb_spec (default_provider E) "anthropic") as [Ha|Ha].
    - rewrite <- Ha, Hconf. eexists; reflexivity.
    - destruct (String.eqb_spec (default_provider E) "ollama") as [Ho|Ho].
      + rewrite <- Ho, Hconf. eexists; reflexivity.
      + eexists; reflexivity. }
  destruct cls; apply H.
Qed.



(** ** Search intent *)




(** ** Clearing the index *)

Lemma dict_get_set_eq {V} (k : string) (v : V) (d : list (string * V)) :
  dict_get k (dict_set k v d) = Some v.
Proof.
  induction d as [|[k' v'] d IH]; simpl.
  - now rewrite String.eqb_refl.
  - destruct (String.eqb k k') eqn:Hk; simpl.
    + now rewrite String.eqb_refl.
    + now rewrite Hk.
Qed.

Lemma dict_get_set_ne {V} (k k2 : string) (v : V) (d : list (string * V)) :
  k <> k2 -> dict_get k2 (dict_set k v d) = dict_get k2 d.
Proof.
  intros Hne. induction d as [|[k' v'] d IH]; simpl.
  - destruct (String.eqb_spec k2 k); [congruence | reflexivity].
  - destruct (String.eqb_spec k k') as [<-|Hk]; simpl.
    + destruct (String.eqb_spec k2 k); [congruence | reflexivity].
    + destruct (String.eqb_spec k2 k'); [reflexivity | exact IH].
Qed.

Lemma recreate_ok (E : Env) (obj_type : string) (w w' : World) :
  recreate E obj_type w = (Ok tt, w') ->
  dict_get obj_type (collections w') = Some (obj_type +:+ "s")
  /\ is_Some (chroma w' !! (obj_type +:+ "s"))
  /\ (forall name, is_Some (chroma w !! name) -> is_Some (chroma w' !! name))
  /\ (forall key, obj_type <> key ->
                  dict_get key (collections w') = dict_get key (collections w)).
Proof.
  unfold recreate, get_or_create_collection, set_collection, chroma_call.
  run. destruct (chroma_fault E (clock w)); [discriminate|]. simpl.
  destruct (chroma w !! (obj_type +:+ "s")) as [docs|] eqn:Hdocs;
    intros [= <-]; simpl.
  - split; [apply dict_get_set_eq|]. split; [now rewrite Hdocs|].
    split; [tauto|]. intros key Hkey. now apply dict_get_set_ne.
  - split; [apply dict_get_set_eq|].
    split; [rewrite lookup_insert_eq; eauto|].
    split; [|intros key Hkey; now apply dict_get_set_ne].
    intros name Hname. destruct (decide (obj_type +:+ "s" = name)) as [<-|Hne].
    + rewrite lookup_insert_eq. eauto.
    + now rewrite lookup_insert_ne.
Qed.

Lemma recovery_ok (E : Env) (w w' : World) :
  for_each ["table"; "view"; "procedure"; "function"]
    (fun obj_type =>
       handle <- get_or_create_collection E (obj_type +:+ "s") ;;
       set_collection obj_type handle) w = (Ok tt, w') ->
  partitions_present w'.
Proof.
  change (for_each ["table"; "view"; "procedure"; "function"] (recreate E) w
          = (Ok tt, w') -> partitions_present w').
  simpl. unfold bind at 1.
  destruct (recreate E "table" w) as [[[]|e] w1] eqn:H1; [|discriminate].
  unfold bind at 1.
  destruct (recreate E "view" w1) as [[[]|e] w2] eqn:H2; [|discriminate].
  unfold bind at 1.
  destruct (recreate E "procedure" w2) as [[[]|e] w3] eqn:H3; [|discriminate].
  unfold bind at 1.
  destruct (recreate E "function" w3) as [[[]|e] w4] eqn:H4; [|discriminate].
  intros [= <-].
  apply recreate_ok in H1 as (T1 & T2 & _ & _).
  apply recreate_ok in H2 as (V1 & V2 & V3 & V4).
  apply recreate_ok in H3 as (P1 & P2 & P3 & P4).
  apply recreate_ok in H4 as (F1 & F2 & F3 & F4).
  intros obj_type Hin.
  assert (Hsome : dict_get obj_type (collections w4) = Some (obj_type +:+ "s")
                  /\ is_Some (chroma w4 !! (obj_type +:+ "s"))).
  { repeat (apply elem_of_cons in Hin as [-> | Hin]).
    - split; [now rewrite F4, P4, V4 | now apply F3, P3, V3].
    - split; [now rewrite F4, P4 | now apply F3, P3].
    - split; [now rewrite F4 | now apply F3].
    - now split.
    - now apply elem_of_nil in Hin. }
  destruct Hsome as [Hh [docs Hdocs]]. now exists docs.
Qed.

Lemma clear_unfold (E : Env) (w : World) :
  clear E w
  = match (clear_collections E ;;; client_reset E) w with
    | (Ok _, w1) => (Ok tt, w1)
    | (Raise original, w1) =>
        let error_msg := "Failed to clear vector store: " +:+ str_exn original in
        match for_each ["table"; "view"; "procedure"; "function"]
                (fun obj_type =>
                   handle <- get_or_create_collection E (obj_type +:+ "s") ;;
                   set_collection obj_type handle) w1 with
        | (Ok _, w2) => (Raise (Exception error_msg), w2)
        | (Raise cleanup_error, w2) =>
            (Raise (Exception (error_msg +:+ ". Additionally, cleanup failed: "
                               +:+ str_exn cleanup_error)), w2)
        end
    end.
Proof.
  unfold clear. unfold try_except at 1.
  destruct ((clear_collections E ;;; client_reset E) w) as [[[]|original] w1];
    [reflexivity|].
  cbv zeta. unfold bind at 1. unfold try_except at 1.
  now destruct (for_each _ _ w1) as [[[]|cleanup_error] w2].
Qed.



Lemma clear_collections_then_reset (E : Env) (w w' : World) :
  (clear_collections E ;;; client_reset E) w = (Ok tt, w') -> chroma w' = ∅.
Proof.
  unfold bind, client_reset, chroma_call.
  destruct (clear_collections E w) as [[[]|e] w1]; [|discriminate].
  destruct (chroma_fault E (clock w1)); [discriminate|].
  now intros [= <-].
Qed.

(** C4 does not hold of the code.  When [clear] returns normally, its last
    step was [client.reset()], which came after the collections had been
    recreated: the index holds no collection, the handles kept in
    [VectorStore.collections] name collections that are gone, [get_stats]
    answers zero everywhere through its handler, and a write into any
    partition raises. *)
Theorem clear_success_leaves_no_collection (E : Env) (w w' : World) :
  clear E w = (Ok tt, w') ->
  chroma w' = ∅
  /\ (get_stats E w').1
     = Ok [("table", 0); ("view", 0); ("procedure", 0); ("function", 0)]
  /\ forall schema name obj_type text meta,
      exists e, (add_documentation E schema name obj_type text meta w').1
                = Raise e.
Proof.
  rewrite clear_unfold.
  destruct ((clear_collections E ;;; client_reset E) w)
    as [[[]|original] w1] eqn:Hdrop.
  - intros [= <-]. apply clear_collections_then_reset in Hdrop.
    split; [exact Hdrop|]. split.
    + unfold get_stats, try_except. unfold bind at 1. unfold bind at 1.
      unfold collection_of, collection_count, chroma_call.
      destruct (dict_get "table" (collections w1)); [|reflexivity].
      destruct (chroma_fault E (clock w1)); [reflexivity|].
      simpl. now rewrite Hdrop, lookup_empty.
    + intros schema name obj_type text meta.
      rewrite add_documentation_unfold.
      destruct (dict_get obj_type (collections w1)); [|eexists; reflexivity].
      destruct (chroma_fault E (clock w1)); [eexists; reflexivity|].
      rewrite Hdrop, lookup_empty. eexists; reflexivity.
  - cbv zeta. destruct (for_each _ _ w1) as [[[]|ce] w2]; discriminate.
Qed.

Lemma clear_success_leaves_no_collection_witness :
  let E := example_env no_definition no_objects provider_down no_fault
             no_ranking in
  let cleared := (clear E ready_world).2 in
  (clear E ready_world).1 = Ok tt
  /\ chroma cleared = ∅
  /\ (add_documentation E "dbo" "t" "table" "Table: dbo.t" [] cleared).1
     = Raise (ValueError "Collection tables does not exist.").
Proof.
  intros E cleared.
  assert (Hrun : clear E ready_world = (Ok tt, cleared))
    by (vm_compute; reflexivity).
  split; [now rewrite Hrun|].
  destruct (clear_success_leaves_no_collection E ready_world cleared Hrun)
    as (Hempty & _ & _).
  split; [exact Hempty|]. vm_compute. reflexivity.
Defined.

(** ** The batch *)









Lemma for_each_app {A} (xs ys : list A) (body : A -> M unit) (w : World) :
  for_each (xs ++ ys) body w = (for_each xs body ;;; for_each ys body) w.
Proof.
  revert w. induction xs as [|x xs IH]; intros w; simpl; [reflexivity|].
  unfold bind. destruct (body x w) as [[[]|e] w1]; [|reflexivity].
  rewrite IH. reflexivity.
Qed.

(** Looping over batches and over their objects is looping over the
    objects of all batches. *)
Lemma for_each_concat {A} (batches : list (list A)) (body : A -> M unit)
    (w : World) :
  for_each batches (fun batch => for_each batch body) w
  = for_each (concat batches) body w.
Proof.
  revert w. induction batches as [|batch batches IH]; intros w; simpl;
    [reflexivity|].
  rewrite for_each_app. unfold bind.
  destruct (for_each batch body w) as [[[]|e] w1]; [apply IH | reflexivity].
Qed.

Lemma list_slice_chunk {A} (l : list A) (k b : nat) :
  list_slice l (Z.of_nat k * Z.of_nat b) (Z.of_nat k * Z.of_nat b + Z.of_nat b)
  = take b (drop (k * b) l).
Proof.
  unfold list_slice, slice_index.
  destruct (Z.ltb_spec (Z.of_nat k * Z.of_nat b) 0); [lia|].
  destruct (Z.ltb_spec (Z.of_nat k * Z.of_nat b + Z.of_nat b) 0); [lia|].
  destruct (Nat.le_gt_cases (k * b) (length l)) as [Hin|Hout].
  - rewrite (Z.min_l (Z.of_nat k * Z.of_nat b)) by lia.
    replace (Z.to_nat (Z.of_nat k * Z.of_nat b)) with (k * b)%nat by lia.
    destruct (Z.le_gt_cases (Z.of_nat k * Z.of_nat b + Z.of_nat b)
                (Z.of_nat (length l))).
    + rewrite Z.min_l by lia. f_equal. lia.
    + rewrite Z.min_r by lia.
      rewrite (take_ge _ b) by (rewrite length_drop; lia).
      apply take_ge. rewrite length_drop. lia.
  - rewrite !Z.min_r by lia. rewrite Z.sub_diag, Nat2Z.id. simpl.
    rewrite (drop_ge l (k * b)) by lia. now destruct b.
Qed.

Lemma chunks_concat {A} (l : list A) (b a n : nat) :
  (length l <= (a + n) * b)%nat ->
  concat ((fun k => take b (drop (k * b) l)) <$> seq a n) = drop (a * b) l.
Proof.
  revert a. induction n as [|n IH]; intros a Hlen; simpl.
  - rewrite drop_ge; [reflexivity | lia].
  - rewrite IH by lia.
    replace (S a * b)%nat with (a * b + b)%nat by lia.
    rewrite <- drop_drop. apply take_drop.
Qed.

(** With a positive batch size the batches of lines 99-100, in order, make
    up the list of objects. *)
Lemma batches_cover {A} (l : list A) (batch_size : Z) (starts : list Z) :
  0 < batch_size ->
  py_range 0 (Z.of_nat (length l)) batch_size = Ok starts ->
  concat ((fun i => list_slice l i (i + batch_size)) <$> starts) = l.
Proof.
  intros Hpos. unfold py_range.
  destruct (Z.eqb_spec batch_size 0) as [Hz|Hz]; [lia|].
  destruct (Z.ltb_spec 0 batch_size) as [Hlt|Hlt]; [|lia].
  intros [= <-]. rewrite <- list_fmap_compose.
  set (b := Z.to_nat batch_size).
  set (n := Z.to_nat ((Z.of_nat (length l) - 0 + batch_size - 1) / batch_size)).
  assert (Hb : batch_size = Z.of_nat b) by lia.
  rewrite (list_fmap_ext _ (fun k => take b (drop (k * b) l)) (seq 0 n)).
  - rewrite chunks_concat; [reflexivity|].
    assert (Z.of_nat (length l) <= Z.of_nat n * batch_size); [|nia].
    unfold n. rewrite Z2Nat.id.
    + pose proof (Z.mul_succ_div_gt
                    (Z.of_nat (length l) - 0 + batch_size - 1) batch_size Hpos).
      lia.
    + apply Z.div_pos; lia.
  - intros i k _. simpl. rewrite Hb. rewrite Z.add_0_l.
    apply list_slice_chunk.
Qed.

(** With a negative batch size there is no batch. *)
Lemma batches_none (len batch_size : Z) :
  0 <= len -> batch_size < 0 -> py_range 0 len batch_size = Ok [].
Proof.
  intros Hlen Hneg. unfold py_range.
  destruct (Z.eqb_spec batch_size 0) as [Hz|Hz]; [lia|].
  destruct (Z.ltb_spec 0 batch_size) as [Hlt|Hlt]; [lia|].
  assert (Hq : (0 - len - batch_size - 1) / - batch_size < 1)
    by (apply Z.div_lt_upper_bound; lia).
  replace (Z.to_nat ((0 - len - batch_size - 1) / - batch_size)) with 0%nat
    by lia.
  reflexivity.
Qed.

Section Processing.

Context (N : Z) (oldest base : list Event).








End Processing.

Lemma for_each_fmap {A B} (g : A -> B) (xs : list A) (body : B -> M unit)
    (w : World) :
  for_each (g <$> xs) body w = for_each xs (fun x => body (g x)) w.
Proof.
  revert w. induction xs as [|x xs IH]; intros w; simpl; [reflexivity|].
  unfold bind. destruct (body (g x) w) as [[[]|e] w1]; [apply IH | reflexivity].
Qed.

Lemma keeps_discover (E : Env) (schema_filter : string) (types : list string)
    (objects : list DbObject) :
  keeps only_clock (discover E schema_filter types objects).
Proof.
  revert objects. induction types as [|obj_type types IH]; intros objects;
    simpl; frame; apply IH.
Qed.

Lemma keeps_get_database_objects (E : Env) (object_types : option (list string))
    (schemas : option (list string)) :
  keeps only_clock (_get_database_objects E object_types schemas).
Proof. unfold _get_database_objects. frame; apply keeps_discover. Qed.

Lemma document_batch_unfold (E : Env) (object_types : list string)
    (schemas : option (list string)) (batch_size : Z)
    (include_llm_analysis : bool) (w : World) :
  document_batch E object_types schemas batch_size include_llm_analysis w
  = let failed := fun (e : exn) (w' : World) =>
      (@Raise unit e, set_progress (with_phase Failed (progress w')) w') in
    match _get_database_objects E (Some object_types) schemas (initializing w) with
    | (Raise e, w3) => failed e w3
    | (Ok objects, w3) =>
        let N := Z.of_nat (length objects) in
        let p3 := with_total N (progress w3) in
        let w5 := set_progress (with_phase Processing p3) (set_progress p3 w3) in
        match py_range 0 N batch_size with
        | Raise e => failed e w5
        | Ok starts =>
            match for_each starts (fun i =>
                    for_each (list_slice objects i (i + batch_size))
                      (document_object E)) w5 with
            | (Ok _, w6) =>
                (Ok tt, set_progress (with_phase Complete (progress w6)) w6)
            | (Raise e, w6) => failed e w6
            end
        end
    end.
Proof.
  unfold document_batch, reset_progress, update_progress.
  unfold try_except, bind, modify, get, lift, raise. cbv beta zeta.
  change (set_progress _ (set_progress _ (set_progress initial_progress w)))
    with (initializing w).
  destruct (_get_database_objects E (Some object_types) schemas (initializing w))
    as [[objects|e] w3]; [|reflexivity].
  simpl progress.
  destruct (py_range 0 (Z.of_nat (length objects)) batch_size) as [starts|e];
    [|reflexivity].
  match goal with
  | |- context [for_each starts ?body ?w5] =>
      now destruct (for_each starts body w5) as [[[]|e] w6]
  end.
Qed.



Lemma initializing_trace (w : World) :
  trace (initializing w) = (opening w ++ trace w)%list
  /\ progress (initializing w)
     = with_phase Initializing
         (with_start_time (Some (clock w)) initial_progress).
Proof. split; reflexivity. Qed.








(** ** The index as a store *)





(** X3.  [add_documentation] succeeds exactly when the type has a handle,
    the index takes the call and the handle names a collection that exists;
    when it fails the index holds what it held, and an unknown type is
    refused before any call to the index. *)
Theorem add_documentation_succeeds_iff (E : Env)
    (schema name obj_type text : string) (meta : Metadata) (w : World) :
  let run := add_documentation E schema name obj_type text meta w in
  (run.1 = Ok tt <->
   exists handle docs,
     dict_get obj_type (collections w) = Some handle
     /\ chroma_fault E (clock w) = None
     /\ chroma w !! handle = Some docs)
  /\ ((exists e, run.1 = Raise e) -> chroma run.2 = chroma w)
  /\ (dict_get obj_type (collections w) = None ->
      run = (Raise (KeyError obj_type), w)).
Proof.
  intros run. unfold run. rewrite add_documentation_unfold.
  destruct (dict_get obj_type (collections w)) as [handle|] eqn:Hh.
  - destruct (chroma_fault E (clock w)) as [e|] eqn:Hf.
    + split; [|split; [reflexivity | discriminate]].
      split; [discriminate|]. now intros (h & d & _ & Hnone & _).
    + destruct (chroma w !! handle) as [docs|] eqn:Hd.
      * split; [|split; [|discriminate]].
        -- split; [intros _; now exists handle, docs | reflexivity].
        -- intros [e He]. discriminate He.
      * split; [|split; [reflexivity | discriminate]].
        split; [discriminate|]. intros (h & d & [= <-] & _ & Hsome).
        congruence.
  - split; [|split; reflexivity].
    split; [discriminate|]. now intros (h & d & Hsome & _).
Qed.

Lemma add_documentation_succeeds_iff_witness :
  let E := example_env no_definition no_objects provider_down no_fault
             no_ranking in
  add_documentation E "dbo" "s" "synonym" "Synonym: dbo.s" [] ready_world
  = (Raise (KeyError "synonym"), ready_world)
  /\ (add_documentation E "dbo" "t" "table" "Table: dbo.t" [] ready_world).1
     = Ok tt.
Proof.
  intros E. split.
  - apply (add_documentation_succeeds_iff E "dbo" "s" "synonym"
             "Synonym: dbo.s" [] ready_world).
    vm_compute. reflexivity.
  - apply (add_documentation_succeeds_iff E "dbo" "t" "table"
             "Table: dbo.t" [] ready_world).
    exists "tables", ∅. repeat split; vm_compute; reflexivity.
Defined.

(** ** Reading the index *)

Lemma keeps_collection_count (E : Env) (handle : string) :
  keeps only_clock (collection_count E handle).
Proof.
  intros w. unfold collection_count, chroma_call.
  destruct (chroma_fault E (clock w)); [now repeat split|].
  simpl. destruct (chroma w !! handle); now repeat split.
Qed.

Lemma keeps_collection_query (E : Env) (handle query : string) (n : Z) :
  keeps only_clock (collection_query E handle query n).
Proof.
  intros w. unfold collection_query, chroma_call.
  destruct (chroma_fault E (clock w)); [now repeat split|].
  simpl. destruct (chroma w !! handle); now repeat split.
Qed.

Lemma keeps_collection_of (key : string) : keeps only_clock (collection_of key).
Proof.
  intros w. unfold collection_of.
  destruct (dict_get key (collections w)); now repeat split.
Qed.

Lemma keeps_search_collection (E : Env) (query : string) (n : Z)
    (collection : string) :
  keeps only_clock (search_collection E query n collection).
Proof.
  unfold search_collection.
  apply keeps_bind; [typeclasses eauto | apply keeps_collection_count|].
  intros count. destruct (0 <? count); [|frame].
  apply keeps_bind; [typeclasses eauto | apply keeps_collection_query|].
  intros answer. frame.
Qed.

Lemma keeps_search_collections (E : Env) (query : string) (n : Z)
    (items : list (string * string)) (results : list Hit) :
  keeps only_clock (search_collections E query n items results).
Proof.
  revert results. induction items as [|[obj_type collection] items IH];
    intros results; simpl; [frame|].
  apply keeps_bind; [typeclasses eauto | apply keeps_search_collection|].
  intros hits. apply IH.
Qed.

Lemma keeps_search (E : Env) (query : string) (n : Z) :
  keeps only_clock (search E query n).
Proof.
  unfold search. frame. apply keeps_search_collections.
Qed.

Lemma keeps_get_stats (E : Env) : keeps only_clock (get_stats E).
Proof.
  unfold get_stats.
  repeat first
    [ apply keeps_collection_of
    | apply keeps_collection_count
    | apply keeps_ret; [typeclasses eauto]
    | apply keeps_bind; [typeclasses eauto | | intros ? ]
    | apply keeps_try_except; [typeclasses eauto | | intros ? ] ].
Qed.

Lemma keeps_get_documentation_summary (E : Env) (schema name obj_type : string) :
  keeps only_clock (get_documentation_summary E schema name obj_type).
Proof.
  unfold get_documentation_summary.
  apply keeps_try_except; [typeclasses eauto | | intros e; frame].
  apply keeps_bind; [typeclasses eauto | apply keeps_search|].
  intros results. destruct results; frame.
Qed.

(** X4.  The read paths never write: [search], [search_documentation],
    [get_stats] and [get_documentation_summary] leave the documents of the
    index, the table of handles, the progress dict and the trace as they
    found them, whether they return or raise. *)
Theorem read_paths_never_write (E : Env) (w : World) :
  (forall query n, only_clock w (search E query n w).2)
  /\ (forall query n, only_clock w (search_documentation E query n w).2)
  /\ only_clock w (get_stats E w).2
  /\ (forall schema name obj_type,
         only_clock w (get_documentation_summary E schema name obj_type w).2).
Proof.
  split; [intros; apply keeps_search|].
  split; [intros; apply keeps_search|].
  split; [apply keeps_get_stats|].
  intros. apply keeps_get_documentation_summary.
Qed.

Lemma count_partition (E : Env) (key : string) (w w' : World)
    (r : result Z) :
  (h <- collection_of key ;; collection_count E h) w = (r, w') ->
  only_clock w w'
  /\ match r with
     | Ok n => partition_size w key n
     | Raise _ => True
     end.
Proof.
  intros Hrun. split.
  - assert (Hk : keeps only_clock
                   (h <- collection_of key ;; collection_count E h)).
    { apply keeps_bind; [typeclasses eauto | apply keeps_collection_of|].
      intros h. apply keeps_collection_count. }
    specialize (Hk w). now rewrite Hrun in Hk.
  - revert Hrun. unfold bind, collection_of, collection_count, chroma_call.
    destruct (dict_get key (collections w)) as [handle|] eqn:Hh;
      [|now intros [= <- <-]].
    destruct (chroma_fault E (clock w)); [now intros [= <- <-]|].
    simpl. destruct (chroma w !! handle) as [docs|] eqn:Hd;
      intros [= <- <-]; [|exact I].
    now exists handle, docs.
Qed.

Lemma partition_size_only_clock (w w' : World) (key : string) (n : Z) :
  only_clock w w' -> partition_size w' key n -> partition_size w key n.
Proof.
  intros (Hc & Hcol & _) (handle & docs & H1 & H2 & H3).
  exists handle, docs. rewrite <- Hc, <- Hcol. now repeat split.
Qed.

(** X5.  [get_stats] never raises.  It answers either the number of
    documents of each of the four partitions, or zero for all four: one
    count that fails (a missing handle, a collection that is gone, a fault
    of the index) hides the counts that succeeded. *)
Theorem get_stats_never_raises (E : Env) (w : World) :
  exists stats w',
    get_stats E w = (Ok stats, w')
    /\ ((exists t v p f,
            stats = [("table", t); ("view", v); ("procedure", p);
                     ("function", f)]
            /\ partition_size w "table" t /\ partition_size w "view" v
            /\ partition_size w "procedure" p
            /\ partition_size w "function" f)
        \/ stats = [("table", 0); ("view", 0); ("procedure", 0);
                    ("function", 0)]).
Proof.
  unfold get_stats, try_except. unfold bind at 1.
  destruct ((h <- collection_of "table" ;; collection_count E h) w)
    as [[t|e] w1] eqn:H1; [|eexists _, _; split; [reflexivity | now right]].
  apply count_partition in H1 as [K1 P1].
  unfold bind at 1.
  destruct ((h <- collection_of "view" ;; collection_count E h) w1)
    as [[v|e] w2] eqn:H2; [|eexists _, _; split; [reflexivity | now right]].
  apply count_partition in H2 as [K2 P2].
  unfold bind at 1.
  destruct ((h <- collection_of "procedure" ;; collection_count E h) w2)
    as [[p|e] w3] eqn:H3; [|eexists _, _; split; [reflexivity | now right]].
  apply count_partition in H3 as [K3 P3].
  unfold bind at 1.
  destruct ((h <- collection_of "function" ;; collection_count E h) w3)
    as [[f|e] w4] eqn:H4; [|eexists _, _; split; [reflexivity | now right]].
  apply count_partition in H4 as [K4 P4].
  eexists _, _. split; [reflexivity|]. left. exists t, v, p, f.
  split; [reflexivity|].
  assert (K12 : only_clock w w2) by (etransitivity; eassumption).
  assert (K13 : only_clock w w3) by (etransitivity; eassumption).
  split; [exact P1|].
  split; [now apply partition_size_only_clock with w1|].
  split; [now apply partition_size_only_clock with w2|].
  now apply partition_size_only_clock with w3.
Qed.

(** ** Building and emptying the index *)

Lemma get_or_create_ok (E : Env) (name : string) (w w' : World) (h : string) :
  get_or_create_collection E name w = (Ok h, w') ->
  h = name
  /\ is_Some (chroma w' !! name)
  /\ (forall other docs, chroma w !! other = Some docs ->
                         chroma w' !! other = Some docs)
  /\ collections w' = collections w.
Proof.
  unfold get_or_create_collection, chroma_call.
  destruct (chroma_fault E (clock w)); [discriminate|]. simpl.
  destruct (chroma w !! name) as [docs|] eqn:Hdocs; intros [= <- <-]; simpl.
  - split; [reflexivity|]. split; [now rewrite Hdocs|]. now split.
  - split; [reflexivity|]. split; [rewrite lookup_insert_eq; eauto|].
    split; [|reflexivity]. intros other docs Hother.
    rewrite lookup_insert_ne; [exact Hother | congruence].
Qed.

(** X6.  When [VectorStore] is built, the four partitions get their
    collections and handles, and every collection the index already held
    keeps its documents: building the store over a populated index loses
    nothing. *)
Theorem VectorStore_init_keeps_documents (E : Env) (w w' : World) :
  VectorStore_init E w = (Ok tt, w') ->
  collections w' = [("table", "tables"); ("view", "views");
                    ("procedure", "procedures"); ("function", "functions")]
  /\ partitions_present w'
  /\ (forall name docs, chroma w !! name = Some docs ->
                        chroma w' !! name = Some docs).
Proof.
  unfold VectorStore_init. rewrite try_reraise.
  unfold bind at 1.
  destruct (chroma_call E (fun c => Ok (tt, c)) w) as [[[]|e] wa] eqn:Ha;
    [|discriminate].
  unfold bind at 1.
  destruct (chroma_call E (fun c => Ok (tt, c)) wa) as [[[]|e] wb] eqn:Hb;
    [|discriminate].
  assert (Hstart : chroma wb = chroma w).
  { revert Ha Hb. unfold chroma_call.
    destruct (chroma_fault E (clock w)); [discriminate|]. intros [= <-].
    simpl. destruct (chroma_fault E (S (clock w))); [discriminate|].
    now intros [= <-]. }
  unfold bind at 1.
  destruct (get_or_create_collection E "tables" wb) as [[t|e] w1] eqn:H1;
    [|discriminate].
  unfold bind at 1.
  destruct (get_or_create_collection E "views" w1) as [[v|e] w2] eqn:H2;
    [|discriminate].
  unfold bind at 1.
  destruct (get_or_create_collection E "procedures" w2) as [[p|e] w3] eqn:H3;
    [|discriminate].
  unfold bind at 1.
  destruct (get_or_create_collection E "functions" w3) as [[f|e] w4] eqn:H4;
    [|discriminate].
  apply get_or_create_ok in H1 as (-> & [dt T1] & T2 & _).
  apply get_or_create_ok in H2 as (-> & [dv V1] & V2 & _).
  apply get_or_create_ok in H3 as (-> & [dp P1] & P2 & _).
  apply get_or_create_ok in H4 as (-> & [df F1] & F2 & _).
  unfold modify. intros [= <-]. simpl.
  split; [reflexivity|]. split.
  - intros obj_type Hin.
    repeat (apply elem_of_cons in Hin as [-> | Hin]).
    + exists dt. split; [reflexivity|]. now apply F2, P2, V2.
    + exists dv. split; [reflexivity|]. now apply F2, P2.
    + exists dp. split; [reflexivity|]. now apply F2.
    + exists df. now split.
    + now apply elem_of_nil in Hin.
  - intros name docs Hdocs. rewrite <- Hstart in Hdocs.
    now apply F2, P2, V2, T2.
Qed.

Lemma VectorStore_init_keeps_documents_witness :
  let E := example_env no_definition no_objects provider_down no_fault
             no_ranking in
  let rebuilt := (VectorStore_init E stocked_world).2 in
  chroma rebuilt !! "procedures"
  = Some {[ "dbo.p" := {| content := "Stored Procedure: dbo.p";
                          metadata := [] |} ]}.
Proof.
  intros E rebuilt.
  apply (VectorStore_init_keeps_documents E stocked_world rebuilt);
    vm_compute; reflexivity.
Defined.

Lemma dict_set_same {V} (k : string) (v : V) (d : list (string * V)) :
  dict_get k d = Some v -> dict_set k v d = d.
Proof.
  induction d as [|[k' v'] d IH]; simpl; [discriminate|].
  destruct (String.eqb_spec k k') as [<-|Hne].
  - now intros [= ->].
  - intros H. now rewrite IH.
Qed.

Lemma dict_get_NoDup {V} (k : string) (v : V) (d : list (string * V)) :
  NoDup d.*1 -> (k, v) ∈ d -> dict_get k d = Some v.
Proof.
  induction d as [|[k' v'] d IH]; simpl; intros Hnd Hin.
  - now apply elem_of_nil in Hin.
  - apply NoDup_cons in Hnd as [Hk' Hnd].
    apply elem_of_cons in Hin as [[= -> ->]|Hin].
    + now rewrite String.eqb_refl.
    + destruct (String.eqb_spec k k') as [->|Hne]; [|now apply IH].
      exfalso. apply Hk'. apply list_elem_of_fmap. now exists (k', v).
Qed.

(** The loop of [clear_collections] over items whose handles are the ones
    the table of handles holds. *)
Lemma clear_loop (E : Env) (items : list (string * string)) (w w' : World) :
  (forall key name, (key, name) ∈ items ->
                    dict_get key (collections w) = Some name) ->
  for_each items (fun '(obj_type, collection) =>
    let name := collection in
    delete_collection E name ;;;
    fresh <- create_collection E name ;;
    set_collection obj_type fresh) w = (Ok tt, w') ->
  collections w' = collections w
  /\ (forall key name, (key, name) ∈ items -> chroma w' !! name = Some ∅)
  /\ (forall name, name ∉ items.*2 -> chroma w' !! name = chroma w !! name).
Proof.
  revert w. induction items as [|[key name] items IH]; intros w Hhandles.
  - simpl. unfold ret. intros [= <-]. split; [reflexivity|].
    split; [|reflexivity]. intros k n Hin. now apply elem_of_nil in Hin.
  - simpl for_each. unfold bind at 1.
    destruct ((delete_collection E name ;;;
               fresh <- create_collection E name ;;
               set_collection key fresh) w) as [[[]|e] w1] eqn:Hstep;
      [|discriminate].
    assert (Hw1 : collections w1 = collections w
                  /\ chroma w1 = <[name := ∅]> (delete name (chroma w))).
    { revert Hstep.
      unfold bind, delete_collection, create_collection, set_collection,
        modify, chroma_call.
      destruct (chroma_fault E (clock w)); [discriminate|]. simpl.
      destruct (chroma w !! name); [|discriminate]. simpl.
      destruct (chroma_fault E (S (clock w))); [discriminate|].
      rewrite lookup_delete_eq. simpl. intros [= <-]. simpl.
      split; [|reflexivity]. apply dict_set_same, Hhandles. now left. }
    destruct Hw1 as [Hcol Hchroma]. intros Hrest.
    apply IH in Hrest as (Hcol' & Hempty & Hother).
    + split; [congruence|]. split.
      * intros k n Hin. apply elem_of_cons in Hin as [[= -> ->]|Hin];
          [|now apply (Hempty k n)].
        destruct (decide (name ∈ items.*2)) as [Hdup|Hfresh].
        -- apply list_elem_of_fmap in Hdup as [[k' n'] [-> Hdup]].
           now apply (Hempty k' n').
        -- rewrite Hother by exact Hfresh. rewrite Hchroma.
           apply lookup_insert_eq.
      * intros n Hn. rewrite fmap_cons in Hn. simpl in Hn.
        apply not_elem_of_cons in Hn as [Hne Hn].
        rewrite Hother by exact Hn. rewrite Hchroma.
        rewrite lookup_insert_ne by congruence.
        now rewrite lookup_delete_ne by congruence.
    + intros k n Hin. rewrite Hcol. apply Hhandles. now right.
Qed.

(** X7.  When [clear_collections] succeeds on a table of handles (a dict:
    its keys are distinct), every partition's collection is there and
    empty, the handles are the ones held before, and collections that no
    handle names are untouched. *)
Theorem clear_collections_empties (E : Env) (w w' : World) :
  NoDup (collections w).*1 ->
  clear_collections E w = (Ok tt, w') ->
  collections w' = collections w
  /\ (forall key name, (key, name) ∈ collections w ->
                       chroma w' !! name = Some ∅)
  /\ (forall name, name ∉ (collections w).*2 ->
                   chroma w' !! name = chroma w !! name).
Proof.
  intros Hnd. unfold clear_collections. rewrite try_reraise.
  unfold bind at 1, get at 1. apply clear_loop.
  intros key name. now apply dict_get_NoDup.
Qed.

Lemma clear_collections_empties_witness :
  let E := example_env no_definition no_objects provider_down no_fault
             no_ranking in
  let emptied := (clear_collections E stocked_world).2 in
  chroma emptied !! "views" = Some ∅.
Proof.
  intros E emptied.
  destruct (clear_collections_empties E stocked_world emptied)
    as (_ & Hempty & _).
  - apply (bool_decide_unpack _). vm_compute. exact I.
  - vm_compute. reflexivity.
  - apply (Hempty "view"). apply (bool_decide_unpack _). vm_compute. exact I.
Defined.

Lemma search_collections_all_empty (E : Env) (query : string) (n : Z)
    (items : list (string * string)) (results : list Hit) (w : World) :
  (forall t, chroma_fault E t = None) ->
  (forall key name, (key, name) ∈ items -> chroma w !! name = Some ∅) ->
  search_collections E query n items results w
  = (Ok results, Nat.iter (length items) tick w).
Proof.
  intros Hfault. revert results w.
  induction items as [|[key name] items IH]; intros results w Hempty;
    simpl; [reflexivity|].
  unfold bind at 1.
  rewrite (search_collection_empty E query n name ∅ w);
    [| apply Hfault | apply (Hempty key); now left | reflexivity].
  rewrite app_nil_r, IH.
  - f_equal. clear. induction (length items) as [|k IHk]; simpl;
      [reflexivity | now rewrite IHk].
  - intros k nm Hin. simpl. apply (Hempty k). now right.
Qed.

(** X8.  Over an index whose partitions are all empty, [search] returns no
    result, whatever the limit, and asks no collection for a ranking: the
    only calls made are the counts, one for each partition. *)
Theorem search_empty_index (E : Env) (query : string) (n_results : Z)
    (w : World) :
  (forall t, chroma_fault E t = None) ->
  (forall key name, (key, name) ∈ collections w -> chroma w !! name = Some ∅) ->
  search E query n_results w
  = (Ok [], Nat.iter (length (collections w)) tick w).
Proof.
  intros Hfault Hempty. rewrite search_unfold.
  rewrite search_collections_all_empty by assumption.
  simpl. f_equal. unfold list_slice. simpl. now rewrite ?drop_nil, ?take_nil.
Qed.

Lemma search_empty_index_witness :
  let E := example_env no_definition no_objects provider_down no_fault
             stocked_ranking in
  (search E "orders" 5 ready_world).1 = Ok []
  /\ clock (search E "orders" 5 ready_world).2 = (clock ready_world + 4)%nat.
Proof.
  intros E.
  rewrite (search_empty_index E "orders" 5 ready_world).
  - split; reflexivity.
  - reflexivity.
  - intros key name Hin.
    assert (Hc : collections ready_world
                 = [("table", "tables"); ("view", "views");
                    ("procedure", "procedures"); ("function", "functions")])
      by (vm_compute; reflexivity).
    rewrite Hc in Hin.
    repeat (apply elem_of_cons in Hin as [[= -> ->]|Hin];
            [vm_compute; reflexivity|]).
    now apply elem_of_nil in Hin.
Defined.

Lemma recreate_runs (E : Env) (obj_type : string) (w : World) :
  chroma_fault E (clock w) = None ->
  exists w', recreate E obj_type w = (Ok tt, w') /\ clock w' = S (clock w).
Proof.
  intros Hfault.
  unfold recreate, bind, get_or_create_collection, set_collection, modify,
    chroma_call.
  rewrite Hfault. simpl.
  destruct (chroma w !! (obj_type +:+ "s")); eexists; split; reflexivity.
Qed.

(** X9.  [clear] cannot succeed on an index that holds no collection while
    handles are held, which is the state a successful [clear] leaves: the
    first drop raises "Collection ... does not exist.".  When the index
    takes the calls, that failed [clear] is what repairs the store: its
    recovery creates the four collections, empty, behind their handles. *)
Theorem clear_after_reset_fails_and_repairs (E : Env) (w : World)
    (key handle : string) (rest : list (string * string)) :
  chroma w = ∅ ->
  collections w = (key, handle) :: rest ->
  (forall t, chroma_fault E t = None) ->
  exists w',
    clear E w
    = (Raise (Exception ("Failed to clear vector store: Collection "
                         +:+ handle +:+ " does not exist.")), w')
    /\ partitions_present w'.
Proof.
  intros Hempty Hitems Hfault. rewrite clear_unfold.
  assert (Hdrop : (clear_collections E ;;; client_reset E) w
                  = (no_collection handle, tick w)).
  { unfold bind at 1. unfold clear_collections. rewrite try_reraise.
    unfold bind at 1, get at 1. rewrite Hitems. simpl for_each.
    unfold bind, delete_collection, chroma_call.
    rewrite Hfault. simpl. now rewrite Hempty, lookup_empty. }
  rewrite Hdrop. unfold no_collection. cbv zeta.
  change (for_each ["table"; "view"; "procedure"; "function"] _ (tick w))
    with (for_each ["table"; "view"; "procedure"; "function"] (recreate E)
            (tick w)).
  pose proof (recovery_ok E (tick w)) as Hrec.
  change (for_each ["table"; "view"; "procedure"; "function"] _ (tick w))
    with (for_each ["table"; "view"; "procedure"; "function"] (recreate E)
            (tick w)) in Hrec.
  simpl for_each in *. unfold bind in *.
  destruct (recreate_runs E "table" (tick w) (Hfault _)) as (w1 & H1 & _).
  destruct (recreate_runs E "view" w1 (Hfault _)) as (w2 & H2 & _).
  destruct (recreate_runs E "procedure" w2 (Hfault _)) as (w3 & H3 & _).
  destruct (recreate_runs E "function" w3 (Hfault _)) as (w4 & H4 & _).
  rewrite H1, H2, H3, H4 in *.
  exists w4. split; [|now apply Hrec].
  simpl. now rewrite ?append_assoc.
Qed.

Lemma clear_after_reset_fails_and_repairs_witness :
  let E := example_env no_definition no_objects provider_down no_fault
             no_ranking in
  let cleared := (clear E ready_world).2 in
  (clear E ready_world).1 = Ok tt
  /\ exists w',
      clear E cleared
      = (Raise (Exception "Failed to clear vector store: Collection tables does not exist."),
         w')
      /\ partitions_present w'.
Proof.
  intros E cleared. split; [vm_compute; reflexivity|].
  apply (clear_after_reset_fails_and_repairs E cleared "table" "tables"
           [("view", "views"); ("procedure", "procedures");
            ("function", "functions")]);
    [vm_compute; reflexivity | vm_compute; reflexivity | reflexivity].
Defined.

(** ** Failures of the documenters *)

(** X10.  For the view, procedure and function documenters a definition
    that is there but empty counts as missing: when the definition query
    answers a row whose text is NULL or the empty string, [document] fails
    with "Could not retrieve definition" and stores nothing. *)
Theorem empty_definition_counts_as_missing (E : Env) (cls : Documenter)
    (schema name : string) (w : World) :
  cls <> TableDocumenter ->
  metadata_available E cls schema name ->
  (forall t, exists rows,
      db_object_definition E t schema name = Ok (None :: rows)
      \/ db_object_definition E t schema name = Ok (Some "" :: rows)) ->
  exists w',
    document E cls schema name w
    = (Raise (definition_not_found cls schema name), w')
    /\ chroma w' = chroma w.
Proof.
  intros Hcls Hmeta Hdef.
  destruct (prepare_definition_missing E cls schema name w Hcls)
    as (e & w1 & Hprep & He).
  { intros t. destruct (Hdef t) as [rows [-> | ->]]; reflexivity. }
  rewrite (He Hmeta) in Hprep. exists w1.
  rewrite document_unfold, Hprep. split; [reflexivity|].
  pose proof (keeps_prepare E cls schema name w) as Hk.
  rewrite Hprep in Hk. apply Hk.
Qed.

Lemma empty_definition_counts_as_missing_witness :
  let null_definition := fun (_ : nat) (_ _ : string) =>
                           @Ok (list (option string)) [None] in
  let E := example_env null_definition no_objects provider_down no_fault
             no_ranking in
  exists w',
    document E ProcedureDocumenter "dbo" "p" ready_world
    = (Raise (ValueError "Could not retrieve definition for procedure dbo.p"),
       w')
    /\ chroma w' = chroma ready_world.
Proof.
  intros null_definition E.
  apply (empty_definition_counts_as_missing E ProcedureDocumenter "dbo" "p"
           ready_world).
  - discriminate.
  - intros t. eexists. reflexivity.
  - intros t. exists []. now left.
Defined.

(** X11.  A function whose return type query answers no row is not
    documented: [document] raises "Could not retrieve return type for
    function schema.name" after its two metadata queries, without asking
    for the definition or the analysis and without touching the index. *)
Theorem function_without_return_type (E : Env) (schema name : string)
    (params : list ParamRow) (w : World) :
  db_function_params E (clock w) schema name = Ok params ->
  db_function_return_type E (S (clock w)) schema name = Ok [] ->
  document E FunctionDocumenter schema name w
  = (Raise (ValueError ("Could not retrieve return type for function "
                        +:+ schema +:+ "." +:+ name)),
     tick (tick w)).
Proof.
  intros Hparams Hret. simpl. unfold FunctionDocumenter_document.
  rewrite try_reraise. unfold FunctionDocumenter_prepare.
  unfold bind at 1. unfold bind at 1.
  rewrite execute_query_unfold, Hparams.
  unfold bind at 1. rewrite execute_query_unfold. simpl clock.
  rewrite Hret. reflexivity.
Qed.

Lemma function_without_return_type_witness :
  let E := with_function_return_type (fun _ _ _ => Ok [])
             (example_env select_1 no_objects provider_down no_fault
                no_ranking) in
  document E FunctionDocumenter "dbo" "f" ready_world
  = (Raise (ValueError "Could not retrieve return type for function dbo.f"),
     tick (tick ready_world)).
Proof.
  intros E.
  apply (function_without_return_type E "dbo" "f" [] ready_world);
    reflexivity.
Defined.

(** X12.  When the first metadata query of a documenter raises, [document]
    raises that same error at once: one call was made, none to the
    definition query, the provider or the index. *)
Theorem metadata_failure_propagates (E : Env) (cls : Documenter)
    (schema name : string) (w : World) (e : exn) :
  first_metadata_query E cls schema name (clock w) = Raise e ->
  document E cls schema name w = (Raise e, tick w).
Proof.
  intros Hfirst. rewrite document_unfold.
  destruct cls; simpl in *;
    unfold TableDocumenter_prepare, ViewDocumenter_prepare,
      ProcedureDocumenter_prepare, FunctionDocumenter_prepare;
    unfold bind at 1; rewrite execute_query_unfold;
    match goal with
    | H : match ?q with _ => _ end = Raise _ |- _ =>
        destruct q; [discriminate H | now injection H as ->]
    end.
Qed.

Lemma metadata_failure_propagates_witness :
  let denied := ExternalError "permission denied" in
  let E := with_view_columns (fun _ _ _ => Raise denied)
             (example_env select_1 no_objects (provider_says "Fine.") no_fault
                no_ranking) in
  document E ViewDocumenter "dbo" "v" ready_world
  = (Raise denied, tick ready_world).
Proof.
  intros denied E.
  apply (metadata_failure_propagates E ViewDocumenter "dbo" "v" ready_world
           denied).
  reflexivity.
Defined.

(** ** External calls *)

Lemma calls_weaken {A} (k k' : nat) (c : M A) :
  (k <= k')%nat -> calls_at_most k c -> calls_at_most k' c.
Proof. intros Hle Hc w. specialize (Hc w). lia. Qed.

Lemma calls_ret {A} (a : A) : calls_at_most 0 (ret a).
Proof. intros w. simpl. lia. Qed.

Lemma calls_raise {A} (e : exn) : calls_at_most 0 (@raise A e).
Proof. intros w. simpl. lia. Qed.

Lemma calls_external {A} (answer : nat -> result A) :
  calls_at_most 1 (external answer).
Proof. intros w. simpl. lia. Qed.

Lemma calls_chroma_call {A} (E : Env) (op : Chroma -> result (A * Chroma)) :
  calls_at_most 1 (chroma_call E op).
Proof.
  intros w. unfold chroma_call.
  destruct (chroma_fault E (clock w)); [simpl; lia|].
  destruct (op _) as [[a c]|e]; simpl; lia.
Qed.

Lemma calls_bind {A B} (a b : nat) (c : M A) (k : A -> M B) :
  calls_at_most a c -> (forall x, calls_at_most b (k x)) ->
  calls_at_most (a + b) (x <- c ;; k x).
Proof.
  intros Hc Hk w. unfold bind. specialize (Hc w).
  destruct (c w) as [[x|e] w1]; simpl in *; [|lia].
  specialize (Hk x w1). lia.
Qed.

Lemma calls_try_except {A} (a b : nat) (body : M A) (handler : exn -> M A) :
  calls_at_most a body -> (forall e, calls_at_most b (handler e)) ->
  calls_at_most (a + b) (try_except body handler).
Proof.
  intros Hb Hh w. unfold try_except. specialize (Hb w).
  destruct (body w) as [[x|e] w1]; simpl in *; [lia|].
  specialize (Hh e w1). lia.
Qed.

Lemma calls_reraise {A} (a : nat) (body : M A) :
  calls_at_most a body -> calls_at_most a (try_except body raise).
Proof. intros Hb w. rewrite try_reraise. apply Hb. Qed.

Lemma calls_execute_query {A} (answer : nat -> result A) :
  calls_at_most 1 (_execute_query answer).
Proof. apply calls_reraise, calls_external. Qed.

Lemma calls_get_definition (E : Env) (schema name : string) :
  calls_at_most 1 (_get_definition E schema name).
Proof.
  apply (calls_try_except 1 0); [|intros e; apply calls_ret].
  apply (calls_bind 1 0); [apply calls_execute_query | intros x; apply calls_ret].
Qed.

Lemma calls_generate_response (E : Env) (prompt : string)
    (provider : option string) :
  calls_at_most 1 (generate_response E prompt provider).
Proof.
  unfold generate_response. apply calls_reraise.
  repeat match goal with
         | |- context [if ?b then _ else _] => destruct b
         end;
    first [apply calls_external | apply (calls_weaken 0 1); [lia | apply calls_raise]].
Qed.

Lemma calls_get_llm_analysis (E : Env) (doc obj_type : string) :
  calls_at_most 1 (_get_llm_analysis E doc obj_type).
Proof.
  apply (calls_try_except 1 0); [|intros e; apply calls_ret].
  unfold analysis_methods.
  repeat match goal with
         | |- context [if ?b then _ else _] => destruct b
         end;
    try (apply (calls_weaken 0 1); [lia | apply calls_ret]);
    (apply (calls_bind 1 0); [apply calls_generate_response
                             | intros x; apply calls_ret]).
Qed.

Lemma calls_add_documentation (E : Env) (schema name obj_type text : string)
    (meta : Metadata) :
  calls_at_most 1 (add_documentation E schema name obj_type text meta).
Proof.
  apply calls_reraise. apply (calls_bind 0 1).
  - intros w. unfold collection_of. destruct (dict_get _ _); simpl; lia.
  - intros handle. apply calls_chroma_call.
Qed.

Lemma calls_enrich_and_store (E : Env) (schema name obj_type : string)
    (prepared : string * Metadata) :
  calls_at_most 2 (enrich_and_store E schema name obj_type prepared).
Proof.
  destruct prepared as [doc meta]. apply (calls_bind 1 1).
  - apply calls_get_llm_analysis.
  - intros analysis. apply calls_add_documentation.
Qed.

Lemma calls_after_query {A B} (answer : nat -> result A) (k : A -> M B)
    (b : nat) (w : World) :
  (forall x, calls_at_most b (k x)) ->
  (clock w < clock ((x <- _execute_query answer ;; k x) w).2
   <= clock w + S b)%nat.
Proof.
  intros Hk. unfold bind. rewrite execute_query_unfold.
  destruct (answer (clock w)) as [x|e]; simpl; [|lia].
  specialize (Hk x (tick w)). simpl in Hk. lia.
Qed.

Ltac definition_check :=
  apply (calls_bind 1 0);
  [ apply calls_get_definition
  | intros ?; destruct (negb _); [apply calls_raise | apply calls_ret] ].

Lemma calls_prepare (E : Env) (cls : Documenter) (schema name : string)
    (w : World) :
  (clock w < clock (prepare E cls schema name w).2
   <= clock w + (call_budget cls - 2))%nat.
Proof.
  destruct cls; simpl;
    unfold TableDocumenter_prepare, ViewDocumenter_prepare,
      ProcedureDocumenter_prepare, FunctionDocumenter_prepare.
  - apply (calls_after_query _ _ 2). intros columns.
    apply (calls_bind 1 1); [apply calls_execute_query | intros indexes].
    apply (calls_bind 1 0); [apply calls_execute_query | intros fks].
    apply calls_ret.
  - apply (calls_after_query _ _ 1). intros columns. definition_check.
  - apply (calls_after_query _ _ 1). intros parameters. definition_check.
  - apply (calls_after_query _ _ 2). intros parameters.
    apply (calls_bind 1 1); [apply calls_execute_query | intros rows].
    destruct rows as [|ret_type more];
      [apply (calls_weaken 0 1); [lia | apply calls_raise] | definition_check].
Qed.

(** X13.  No documenter retries or repeats a call: [document] makes at
    least one external call and at most its budget (the metadata queries,
    the definition query, one request to the provider, one upsert), and a
    request for an analysis costs at most one call to the provider,
    whatever fails. *)
Theorem document_within_call_budget (E : Env) (cls : Documenter)
    (schema name doc : string) (w : World) :
  (clock w < clock (document E cls schema name w).2 <= clock w + call_budget cls)%nat
  /\ calls_at_most 1 (analyze E cls doc).
Proof.
  split; [|destruct cls; apply calls_generate_response].
  pose proof (calls_prepare E cls schema name w) as Hprepare.
  rewrite document_unfold.
  destruct (prepare E cls schema name w) as [[prepared|e] w1]; simpl in *.
  - pose proof (calls_enrich_and_store E schema name (tag cls) prepared w1).
    assert (2 <= call_budget cls)%nat by (destruct cls; simpl; lia).
    lia.
  - lia.
Qed.

(** ** Summaries of enriched documents *)

(** The heading does not overlap itself: where it begins inside a text that
    is followed by the heading, it lies within that text. *)
Lemma heading_inside (doc post : string) :
  doc <> "" ->
  String.prefix analysis_heading (doc +:+ analysis_heading +:+ post) = true ->
  String.prefix analysis_heading doc = true.
Proof.
  intros Hne Hp. apply prefix_spec in Hp as [rest Hp]. apply prefix_spec.
  revert Hp.
  let h := eval vm_compute in analysis_heading in
    change analysis_heading with h.
  do 11 (destruct doc as [|? doc];
         [ first [ now elim Hne | simpl; intros Hp; congruence ] |]).
  simpl. intros Hp. exists doc. congruence.
Qed.

Lemma heading_first_after (doc post : string) (j : nat) :
  ~ contains analysis_heading doc ->
  occurs_at analysis_heading (doc +:+ analysis_heading +:+ post) j ->
  (String.length doc <= j)%nat.
Proof.
  revert j. induction doc as [|c doc IH]; intros j Hno Hocc; [simpl; lia|].
  destruct j as [|j].
  - exfalso. apply Hno. exists 0%nat. apply occurs_at_0.
    apply (heading_inside _ post); [discriminate|].
    now apply occurs_at_0.
  - simpl in Hocc |- *. apply occurs_at_S in Hocc.
    apply IH in Hocc; [lia|].
    intros [i Hi]. apply Hno. exists (S i). now apply occurs_at_S.
Qed.

(** X14.  The summary undoes the enrichment: when the best match holds a
    document followed by the separator and a narrative, and the document
    itself does not contain the heading, [get_documentation_summary] returns
    exactly the document, whatever the narrative says. *)
Theorem summary_drops_narrative (E : Env) (schema name obj_type : string)
    (w w' : World) (first : Hit) (rest : list Hit) (doc narrative : string) :
  search E (schema +:+ "." +:+ name +:+ " " +:+ obj_type) 1 w
  = (Ok (first :: rest), w') ->
  hit_content first = doc +:+ analysis_separator +:+ narrative ->
  ~ contains analysis_heading doc ->
  get_documentation_summary E schema name obj_type w = (Ok doc, w').
Proof.
  intros Hsearch Hcontent Hno.
  assert (Hsplit : hit_content first
                   = doc +:+ analysis_heading +:+ nl +:+ narrative).
  { rewrite Hcontent. unfold analysis_separator, analysis_heading.
    now rewrite !append_assoc. }
  rewrite summary_unfold, Hsearch. cbv zeta. rewrite Hsplit.
  rewrite str_find_first
    by (intros j; apply heading_first_after; exact Hno).
  destruct (Z.ltb_spec (-1) (Z.of_nat (String.length doc))); [|lia].
  now rewrite str_slice_prefix.
Qed.

Lemma summary_drops_narrative_witness :
  let E := example_env select_1 no_objects
             (provider_says ("Nothing to add." +:+ analysis_separator +:+ "Really."))
             no_fault rank_stored in
  let w := (document E TableDocumenter "dbo" "t" ready_world).2 in
  let w' := (search E "dbo.t table" 1 w).2 in
  get_documentation_summary E "dbo" "t" "table" w
  = (Ok ("Table: dbo.t" +:+ nl +:+ nl +:+ "Columns:" +:+ nl +:+ nl
         +:+ "id (int(4)) NOT NULL"), w').
Proof.
  intros E w w'.
  pose (text := "Table: dbo.t" +:+ nl +:+ nl +:+ "Columns:" +:+ nl +:+ nl
                +:+ "id (int(4)) NOT NULL").
  pose (first := {| hit_id := "dbo.t";
                    hit_content := text +:+ analysis_separator
                                   +:+ "Nothing to add." +:+ analysis_separator
                                   +:+ "Really.";
                    hit_metadata :=
                      [("schema", MStr "dbo"); ("name", MStr "t");
                       ("type", MStr "table"); ("column_count", MInt 1);
                       ("has_indexes", MBool false);
                       ("has_foreign_keys", MBool false)];
                    distance := 0%Q |}).
  apply (summary_drops_narrative E "dbo" "t" "table" w w' first [] text
           ("Nothing to add." +:+ analysis_separator +:+ "Really.")).
  - vm_compute. reflexivity.
  - reflexivity.
  - intros [i Hi]. revert i Hi. apply find_index_None. vm_compute. reflexivity.
Defined.

(** ** The objects of a batch *)











(** With a positive batch size the two nested loops of lines 99-102 visit
    the objects one by one, in order. *)
Lemma batch_loop_flat (E : Env) (objects : list DbObject) (batch_size : Z)
    (starts : list Z) (w : World) :
  0 < batch_size ->
  py_range 0 (Z.of_nat (length objects)) batch_size = Ok starts ->
  for_each starts (fun i =>
    for_each (list_slice objects i (i + batch_size)) (document_object E)) w
  = for_each objects (document_object E) w.
Proof.
  intros Hpos Hrange.
  rewrite <- (for_each_fmap (fun i => list_slice objects i (i + batch_size))
                starts (fun batch => for_each batch (document_object E))).
  rewrite for_each_concat.
  now rewrite (batches_cover objects batch_size starts Hpos Hrange).
Qed.

Lemma py_range_positive (stop step : Z) :
  0 < step -> exists starts, py_range 0 stop step = Ok starts.
Proof.
  intros Hpos. unfold py_range.
  destruct (Z.eqb_spec step 0); [lia | eauto].
Qed.

Lemma document_batch_flat (E : Env) (object_types : list string)
    (schemas : option (list string)) (batch_size : Z)
    (include_llm_analysis : bool) (w : World) :
  0 < batch_size ->
  document_batch E object_types schemas batch_size include_llm_analysis w
  = let failed := fun (e : exn) (w' : World) =>
      (@Raise unit e, set_progress (with_phase Failed (progress w')) w') in
    match _get_database_objects E (Some object_types) schemas (initializing w) with
    | (Raise e, w3) => failed e w3
    | (Ok objects, w3) =>
        let p3 := with_total (Z.of_nat (length objects)) (progress w3) in
        let w5 := set_progress (with_phase Processing p3) (set_progress p3 w3) in
        match for_each objects (document_object E) w5 with
        | (Ok _, w6) =>
            (Ok tt, set_progress (with_phase Complete (progress w6)) w6)
        | (Raise e, w6) => failed e w6
        end
    end.
Proof.
  intros Hpos. rewrite document_batch_unfold. cbv zeta.
  destruct (_get_database_objects E (Some object_types) schemas (initializing w))
    as [[objects|e] w3]; [|reflexivity].
  destruct (py_range_positive (Z.of_nat (length objects)) batch_size Hpos)
    as [starts Hrange].
  rewrite Hrange. now rewrite (batch_loop_flat E objects batch_size starts).
Qed.

(** X15.  The batch size and the flag [include_llm_analysis] have no effect:
    with any two positive batch sizes and any two values of the flag, a
    batch gives the same result and leaves the same state, observations
    included. *)
Theorem batch_size_has_no_effect (E : Env) (object_types : list string)
    (schemas : option (list string)) (size size' : Z) (flag flag' : bool)
    (w : World) :
  0 < size -> 0 < size' ->
  document_batch E object_types schemas size flag w
  = document_batch E object_types schemas size' flag' w.
Proof.
  intros Hpos Hpos'. now rewrite !document_batch_flat by assumption.
Qed.

Lemma batch_size_has_no_effect_witness :
  let E := example_env select_1 two_tables_one_view (provider_says "Fine.")
             no_fault no_ranking in
  document_batch E ["table"; "view"] None 1 true ready_world
  = document_batch E ["table"; "view"] None 50 false ready_world.
Proof.
  intros E.
  apply (batch_size_has_no_effect E ["table"; "view"] None 1 50 true false
           ready_world); lia.
Defined.



(** X17.  A batch size that is not positive documents nothing once the
    objects are discovered: with size 0 the batch fails on [range()] with
    the phase Failed, with a negative size it returns with the phase
    Complete; either way [total] is the number of objects discovered,
    [current] is 0, no call is made after the discovery and the index is
    left as it was. *)
Theorem nonpositive_batch_size_documents_nothing (E : Env)
    (object_types : list string) (schemas : option (list string))
    (batch_size : Z) (include_llm_analysis : bool) (w w3 : World)
    (objects : list DbObject) :
  batch_size <= 0 ->
  _get_database_objects E (Some object_types) schemas (initializing w)
  = (Ok objects, w3) ->
  let out := document_batch E object_types schemas batch_size
               include_llm_analysis w in
  out.1 = (if batch_size =? 0
           then Raise (ValueError "range() arg 3 must not be zero")
           else Ok tt)
  /\ phase (progress out.2) = (if batch_size =? 0 then Failed else Complete)
  /\ total (progress out.2) = Z.of_nat (length objects)
  /\ current (progress out.2) = 0
  /\ clock out.2 = clock w3
  /\ chroma out.2 = chroma w
  /\ documenting [] w out.2.
Proof.
  intros Hsize Hdisc out. unfold out.
  rewrite document_batch_unfold. rewrite Hdisc. cbv zeta.
  pose proof (keeps_get_database_objects E (Some object_types) schemas
                (initializing w)) as Hkeep.
  rewrite Hdisc in Hkeep. simpl in Hkeep.
  destruct Hkeep as (Hchroma & _ & Hprog & Htrace).
  destruct (initializing_trace w) as [Ht Hp].
  assert (Hnone : forall final,
    documenting [] w
      (set_progress
         (with_phase final
            (with_phase Processing
               (with_total (Z.of_nat (length objects)) (progress w3))))
         (set_progress
            (with_phase Processing
               (with_total (Z.of_nat (length objects)) (progress w3)))
            (set_progress
               (with_total (Z.of_nat (length objects)) (progress w3)) w3)))).
  { intros final. eexists (_ :: _ :: _ :: opening w). simpl trace.
    rewrite Htrace, Ht. split; reflexivity. }
  destruct (Z.eqb_spec batch_size 0) as [->|Hnz].
  - refine (conj _ (conj _ (conj _ (conj _ (conj _ (conj _ (Hnone Failed)))))));
      simpl; rewrite ?Hprog, ?Hp, ?Hchroma; reflexivity.
  - rewrite batches_none by lia.
    refine (conj _ (conj _ (conj _ (conj _ (conj _ (conj _ (Hnone Complete)))))));
      simpl; rewrite ?Hprog, ?Hp, ?Hchroma; reflexivity.
Qed.

Lemma nonpositive_batch_size_documents_nothing_witness :
  let E := example_env select_1 two_tables_one_view (provider_says "Fine.")
             no_fault no_ranking in
  let out := document_batch E ["table"; "view"] None (-1) true ready_world in
  out.1 = Ok tt
  /\ phase (progress out.2) = Complete
  /\ total (progress out.2) = 3
  /\ current (progress out.2) = 0
  /\ chroma out.2 = chroma ready_world.
Proof.
  intros E.
  pose proof (nonpositive_batch_size_documents_nothing E ["table"; "view"] None
                (-1) true ready_world
                (_get_database_objects E (Some ["table"; "view"]) None
                   (initializing ready_world)).2
                [ {| schema_name := "dbo"; obj_name := "a"; obj_type := "table" |};
                  {| schema_name := "dbo"; obj_name := "b"; obj_type := "table" |};
                  {| schema_name := "dbo"; obj_name := "v"; obj_type := "view" |} ]
                ltac:(lia) ltac:(vm_compute; reflexivity))
    as (Hres & Hphase & Htotal & Hcurrent & _ & Hchroma & _).
  repeat split; assumption.
Defined.

(** ** Discovery *)

Lemma discover_known (E : Env) (schema_filter : string) (types : list string)
    (objects : list DbObject) (w : World) :
  discover E schema_filter types objects w
  = discover E schema_filter (List.filter (has_query E) types) objects w.
Proof.
  revert objects w. induction types as [|obj_type types IH]; intros objects w;
    [reflexivity|].
  cbn [List.filter discover]. unfold has_query.
  destruct (dict_get obj_type (OBJECT_QUERIES E)) as [template|] eqn:Hq.
  - cbn [discover]. rewrite Hq. unfold bind.
    destruct (external _ w) as [[rows|e] w1]; [apply IH | reflexivity].
  - apply IH.
Qed.

(** X18.  A requested type that is not a key of [OBJECT_QUERIES] is skipped
    without a query and without an error: discovering a list of types is
    discovering those of them that have a query, and a request that names
    only other types opens the connection and discovers nothing. *)
Theorem discovery_skips_types_without_query (E : Env)
    (object_types : list string) (schemas : option (list string))
    (w : World) :
  object_types <> [] ->
  _get_database_objects E (Some object_types) schemas w
  = match List.filter (has_query E) object_types with
    | [] => connect_only E w
    | known => _get_database_objects E (Some known) schemas w
    end.
Proof.
  intros Hne. destruct object_types as [|t rest]; [now elim Hne|].
  unfold _get_database_objects. rewrite !try_reraise.
  destruct (List.filter (has_query E) (t :: rest)) as [|k known] eqn:Hknown.
  - unfold bind, external, connect_only.
    destruct (db_connect E (clock w)); [reflexivity|].
    rewrite discover_known, Hknown. reflexivity.
  - rewrite try_reraise. unfold bind, external.
    destruct (db_connect E (clock w)); [reflexivity|].
    rewrite discover_known, Hknown. reflexivity.
Qed.

Lemma discovery_skips_types_without_query_witness :
  let E := example_env select_1 two_tables_one_view provider_down no_fault
             no_ranking in
  _get_database_objects E (Some ["trigger"; "view"; "synonym"]) None fresh_world
  = _get_database_objects E (Some ["view"]) None fresh_world
  /\ _get_database_objects E (Some ["trigger"]) None fresh_world
     = (Ok [], tick fresh_world).
Proof.
  intros E. split.
  - apply (discovery_skips_types_without_query E
             ["trigger"; "view"; "synonym"] None fresh_world).
    discriminate.
  - apply (discovery_skips_types_without_query E ["trigger"] None fresh_world).
    discriminate.
Defined.

(** ** Clearing the documentation *)

#[local] Instance same_progress_refl : Reflexive same_progress.
Proof. intros w. now split. Qed.

#[local] Instance same_progress_trans : Transitive same_progress.
Proof. intros a b c [H1 H2] [K1 K2]. split; congruence. Qed.

Lemma keeps_progress_chroma_call {A} (E : Env)
    (op : Chroma -> result (A * Chroma)) :
  keeps same_progress (chroma_call E op).
Proof.
  intros w. destruct (keeps_chroma_call E op w) as (_ & Hp & Ht). now split.
Qed.

Lemma keeps_progress_set_collection (key handle : string) :
  keeps same_progress (set_collection key handle).
Proof. intros w. now split. Qed.

Lemma keeps_progress_clear (E : Env) : keeps same_progress (clear E).
Proof.
  unfold clear, clear_collections, client_reset, delete_collection,
    create_collection, get_or_create_collection.
  frame;
    first [apply keeps_progress_chroma_call | apply keeps_progress_set_collection].
Qed.

(** X19.  [clear_documentation] resets the progress dict exactly when the
    index was cleared: if [clear] raises, the error is passed on and the
    dict and its history are left as they were. *)
Theorem clear_documentation_resets_on_success_only (E : Env) (w : World) :
  let out := clear_documentation E w in
  match out.1 with
  | Ok _ =>
      (clear E w).1 = Ok tt
      /\ progress out.2 = initial_progress
      /\ trace out.2 = EvProgress initial_progress :: trace w
  | Raise e => (clear E w).1 = Raise e /\ same_progress w out.2
  end.
Proof.
  unfold clear_documentation, reset_progress, bind, modify.
  pose proof (keeps_progress_clear E w) as [Hp Ht].
  destruct (clear E w) as [[[]|e] w1]; simpl in *.
  - now rewrite Ht.
  - now repeat split.
Qed.

(** ** Building the provider clients *)

Lemma LLMClient_init_clients (startup : Startup) (llm : LLMClient) :
  LLMClient_init startup = Ok llm ->
  self_clients llm = ["anthropic"] \/ self_clients llm = ["ollama"]
  \/ self_clients llm = ["anthropic"; "ollama"].
Proof.
  unfold LLMClient_init.
  destruct (llm_config_json startup) as [config|e]; [|discriminate].
  destruct (cfg_providers config) as [providers|]; [|discriminate].
  destruct (dict_get "anthropic" providers) as [anthropic_config|];
    [destruct (truthy_str _); [destruct (new_Anthropic _ _); [discriminate|]|]|];
    (destruct (dict_get "ollama" providers) as [ollama_config|];
     [destruct (new_OllamaClient _ _); [discriminate|]|]);
    simpl; intros [= <-]; simpl; auto.
Qed.

Lemma generate_response_configured (E : Env) (p prompt : string) (w : World) :
  p = "anthropic" \/ p = "ollama" ->
  configured E p = true ->
  generate_response E prompt (Some p) w
  = (provider_answer E p (clock w) prompt, tick w).
Proof.
  intros [-> | ->] Hconf; unfold generate_response, provider_answer;
    rewrite try_reraise; simpl; rewrite Hconf; reflexivity.
Qed.

(** X20.  [LLMClient()] either raises or holds at least one client, and
    each client it holds answers: asked for by name, [generate_response]
    makes one call to that provider and returns or raises what it answers.
    The default provider is not checked against the clients: when it is
    not among them, every analysis a documenter asks for is dropped without
    a call. *)
Theorem LLMClient_init_checks_clients_not_default (startup : Startup)
    (llm : LLMClient) :
  LLMClient_init startup = Ok llm ->
  self_clients llm <> []
  /\ (forall p, p ∈ self_clients llm ->
        forall E prompt w,
          generate_response (with_llm_client llm E) prompt (Some p) w
          = (provider_answer E p (clock w) prompt, tick w))
  /\ (self_default_provider llm ∉ self_clients llm ->
        forall E cls doc w,
          _get_llm_analysis (with_llm_client llm E) doc (tag cls) w
          = (Ok None, w)).
Proof.
  intros Hinit. apply LLMClient_init_clients in Hinit.
  split; [|split].
  - destruct Hinit as [H|[H|H]]; rewrite H; discriminate.
  - intros p Hp E prompt w.
    assert (Hconf : configured (with_llm_client llm E) p = true).
    { unfold configured. simpl clients. apply existsb_exists. exists p.
      split; [now apply list_elem_of_In | apply String.eqb_refl]. }
    rewrite generate_response_configured; [reflexivity | | exact Hconf].
    destruct Hinit as [H|[H|H]]; rewrite H in Hp;
      repeat (apply elem_of_cons in Hp as [Hp|Hp]; [auto|]);
      now apply elem_of_nil in Hp.
  - intros Hdefault E cls doc w. rewrite get_llm_analysis_unfold.
    destruct (analyze_unavailable (with_llm_client llm E) cls doc w)
      as [e He]; [|now rewrite He].
    unfold configured. simpl.
    destruct (existsb _ _) eqn:Hex; [|reflexivity].
    apply existsb_exists in Hex as (p & Hin & Heq).
    apply String.eqb_eq in Heq. subst p.
    elim Hdefault. now apply list_elem_of_In.
Qed.

Lemma LLMClient_init_checks_clients_not_default_witness :
  let llm := {| self_default_provider := "anthropic";
                self_clients := ["ollama"] |} in
  let E := with_llm_client llm
             (example_env select_1 no_objects (provider_says "Fine.")
                no_fault no_ranking) in
  LLMClient_init (ollama_only None) = Ok llm
  /\ generate_response E "Say hello!" (Some "ollama") ready_world
     = (Ok "Fine.", tick ready_world)
  /\ _get_llm_analysis E "Table: dbo.t" "table" ready_world
     = (Ok None, ready_world).
Proof.
  intros llm E.
  destruct (LLMClient_init_checks_clients_not_default (ollama_only None) llm
              eq_refl) as (_ & Hanswer & Hdropped).
  split; [reflexivity|]. split.
  - apply (Hanswer "ollama"). apply (bool_decide_unpack _). vm_compute. exact I.
  - apply (Hdropped ltac:(apply (bool_decide_unpack _); vm_compute; exact I)
             _ TableDocumenter).
Defined.

(** ** Testing the connections *)

Lemma keeps_LLMClient_test_connection (E : Env) (P : Probes)
    (provider : option string) :
  keeps only_clock (LLMClient_test_connection E P provider).
Proof. unfold LLMClient_test_connection. frame. Qed.

Lemma keeps_test_connection (E : Env) (P : Probes) :
  keeps only_clock (test_connection E P).
Proof.
  unfold test_connection. frame; try apply keeps_LLMClient_test_connection;
    frame.
Qed.

Lemma test_connection_unfold (E : Env) (P : Probes) (w : World) :
  test_connection E P w
  = let unreachable := fun e =>
      JObject [("connected", JBool false); ("error", JString (str_exn e))] in
    let reachable := fun version status =>
      JObject [("connected", JBool true);
               ("database_version", JString version);
               ("llm_status", status)] in
    match db_connect E (clock w) with
    | Some e => (Ok (unreachable e), tick w)
    | None =>
        match db_version P (S (clock w)) with
        | Raise e => (Ok (unreachable e), tick (tick w))
        | Ok version =>
            match LLMClient_test_connection E P None (tick (tick w)) with
            | (Ok status, w1) => (Ok (reachable version status), w1)
            | (Raise e, w1) =>
                (Ok (reachable version
                       (JObject [("error", JString (str_exn e))])), w1)
            end
        end
    end.
Proof.
  unfold test_connection. run.
  destruct (db_connect E (clock w)) as [e|]; [reflexivity|]. simpl.
  destruct (db_version P (S (clock w))) as [version|e]; [|reflexivity].
  now destruct (LLMClient_test_connection E P None (tick (tick w)))
    as [[status|e] w1].
Qed.

(** X21.  [test_connection] never raises: it returns a report whose entry
    [connected] tells whether the database answered the connection and the
    version query.  When it did not, the provider is not asked and the
    report has no [llm_status]; when it did, [llm_status] is the report of
    the provider's test or, if that test raised, its error message, and
    [connected] stays true. *)
Theorem test_connection_always_reports (E : Env) (P : Probes) (w : World) :
  let out := test_connection E P w in
  let llm := LLMClient_test_connection E P None (tick (tick w)) in
  only_clock w out.2
  /\ exists report,
       out.1 = Ok (JObject report)
       /\ dict_get "connected" report
          = Some (JBool (database_answers E P (clock w)))
       /\ if database_answers E P (clock w) then
            dict_get "llm_status" report
            = Some (match llm.1 with
                    | Ok status => status
                    | Raise e => JObject [("error", JString (str_exn e))]
                    end)
            /\ out.2 = llm.2
          else
            dict_get "llm_status" report = None
            /\ (clock out.2 <= clock w + 2)%nat.
Proof.
  intros out llm. split; [apply keeps_test_connection|].
  unfold out, llm, database_answers. rewrite test_connection_unfold.
  cbv zeta.
  destruct (db_connect E (clock w)) as [e|].
  - eexists. simpl.
    split; [reflexivity|]. split; [reflexivity|]. split; [reflexivity | lia].
  - destruct (db_version P (S (clock w))) as [version|e].
    + destruct (LLMClient_test_connection E P None (tick (tick w)))
        as [[status|e] w1]; eexists; simpl;
        (split; [reflexivity|]; split; [reflexivity|]; split; reflexivity).
    + eexists. simpl.
      split; [reflexivity|]. split; [reflexivity|]. split; [reflexivity | lia].
Qed.
